(** * Catalog query planner and review aggregator

    A shallow embedding of [controllers/productController.js] (the JavaScript
    text that [src/script_3.py] writes to disk): the request handlers
    [getProducts], [updateProduct] and [createProductReview], the JavaScript
    primitives they call ([parseInt], [parseFloat], [Number], [RegExp],
    truthiness) and the document store they run against; the handlers
    [getProductById] and [deleteProduct]; and the loop of the Python script
    itself, which writes the project files.

    Conventions of the model:
    - a JavaScript number is [NaN], an infinity or a finite value; finite
      values are exact rationals, so IEEE-754 rounding and overflow are not
      part of the model, and [-0] is identified with [0];
    - strings are byte strings ([string]); case folding is ASCII;
    - the query string of a request maps names to strings, and a request body
      has typed optional fields; arrays or objects in the query string, and
      [null] or mistyped fields in a body, are outside the model;
    - ids are opaque strings, each taken as well formed; a document is
      stored under its id; [save] validates the document
      against the schema and then writes it whole; the store refuses a [NaN]
      operand on [price] and a negative [skip];
    - the collaborators whose code is not part of the controller (the Product
      schema checked by [save], the store's text search and ordering, the
      regular-expression engine beyond literal characters and [.]) are the
      fields of the class [Platform], and every handler is parametric in it. *)

From Stdlib Require Import ZArith QArith Lqa String Ascii List Bool Lia.
From stdpp Require Import base option list gmap strings.

Local Open Scope Z_scope.

(** ** JavaScript numbers *)

Module JS.

Inductive number :=
| NaN
| Fin (q : Q)
| Infinity (negative : bool).


Definition isNaN (x : number) : bool :=
  match x with NaN => true | _ => false end.

Definition is_zero (q : Q) : bool := Qeq_bool q 0.
Definition is_neg (q : Q) : bool := negb (Qle_bool 0 q).

(** [x + y] *)
Definition add (x y : number) : number :=
  match x, y with
  | NaN, _ | _, NaN => NaN
  | Fin a, Fin b => Fin (a + b)
  | Fin _, Infinity s | Infinity s, Fin _ => Infinity s
  | Infinity s, Infinity t => if Bool.eqb s t then Infinity s else NaN
  end.

(** [x / y]; a zero divisor is [+0]. *)
Definition div (x y : number) : number :=
  match x, y with
  | NaN, _ | _, NaN => NaN
  | Fin a, Fin b =>
      if is_zero b then (if is_zero a then NaN else Infinity (is_neg a))
      else Fin (a / b)
  | Fin _, Infinity _ => Fin 0
  | Infinity s, Fin b => Infinity (xorb s (is_neg b))
  | Infinity _, Infinity _ => NaN
  end.

(** [x <= y]; every comparison with [NaN] is false. *)
Definition le (x y : number) : bool :=
  match x, y with
  | NaN, _ | _, NaN => false
  | Fin a, Fin b => Qle_bool a b
  | Fin _, Infinity s => negb s
  | Infinity s, Fin _ => s
  | Infinity s, Infinity t => s || negb t
  end.

Definition of_Z (n : Z) : number := Fin (inject_Z n).
Definition of_nat (n : nat) : number := of_Z (Z.of_nat n).

(** ** Values of a JSON request body and their coercions *)

Inductive value :=
| VUndefined
| VNull
| VBool (b : bool)
| VNumber (n : number)
| VString (s : string).

(** ToBoolean on strings and numbers. *)
Definition truthy_string (s : string) : bool :=
  match s with EmptyString => false | _ => true end.

Definition truthy_number (x : number) : bool :=
  match x with
  | NaN => false
  | Fin q => negb (is_zero q)
  | Infinity _ => true
  end.

(** ** Scanning numeric literals *)

Definition is_space (c : ascii) : bool :=
  let n := nat_of_ascii c in
  ((9 <=? n) && (n <=? 13))%nat || (n =? 32)%nat.

Fixpoint trim_left (l : list ascii) : list ascii :=
  match l with
  | c :: l' => if is_space c then trim_left l' else l
  | [] => []
  end.

Definition trim (l : list ascii) : list ascii :=
  rev (trim_left (rev (trim_left l))).

(** Value of a digit in the given radix, if [c] is one. *)
Definition digit_of (radix : Z) (c : ascii) : option Z :=
  let n := Z.of_nat (nat_of_ascii c) in
  let d :=
    if (48 <=? n) && (n <=? 57) then Some (n - 48)
    else if (97 <=? n) && (n <=? 122) then Some (n - 87)
    else if (65 <=? n) && (n <=? 90) then Some (n - 55)
    else None in
  match d with
  | Some v => if v <? radix then Some v else None
  | None => None
  end.

(** Longest prefix of digits: its digits (most significant first) and the
    rest of the input. *)
Fixpoint span_digits (radix : Z) (l : list ascii) : list Z * list ascii :=
  match l with
  | c :: l' =>
      match digit_of radix c with
      | Some d => let '(ds, rest) := span_digits radix l' in (d :: ds, rest)
      | None => ([], l)
      end
  | [] => ([], [])
  end.

Definition digits_value (radix : Z) (ds : list Z) : Z :=
  fold_left (fun acc d => radix * acc + d) ds 0.

Definition strip_sign (l : list ascii) : bool * list ascii :=
  match l with
  | "-"%char :: l' => (true, l')
  | "+"%char :: l' => (false, l')
  | _ => (false, l)
  end.

Definition signed (neg : bool) (n : Z) : Z := if neg then - n else n.

(** [parseInt(s)] with no radix argument; [None] is [NaN]. *)
Definition parseInt_chars (l : list ascii) : option Z :=
  let '(neg, l1) := strip_sign (trim_left l) in
  let '(radix, l2) :=
    match l1 with
    | "0"%char :: "x"%char :: l' | "0"%char :: "X"%char :: l' => (16, l')
    | _ => (10, l1)
    end in
  match span_digits radix l2 with
  | ([], _) => None
  | (ds, _) => Some (signed neg (digits_value radix ds))
  end.

(** [parseInt(req.query.k)]: an absent parameter is [undefined], whose string
    form has no digits. *)
Definition parseInt (s : option string) : option Z :=
  match s with
  | Some s => parseInt_chars (list_ascii_of_string s)
  | None => None
  end.

Definition pow10 (e : Z) : Q := Qpower (10 # 1) e.

(** An exponent part [e[+-]digits], consumed only when a digit follows. *)
Definition scan_exponent (l : list ascii) : Z * list ascii :=
  match l with
  | c :: l' =>
      if (Ascii.eqb c "e" || Ascii.eqb c "E")%bool then
        let '(neg, l2) := strip_sign l' in
        match span_digits 10 l2 with
        | ([], _) => (0, l)
        | (ds, rest) => (signed neg (digits_value 10 ds), rest)
        end
      else (0, l)
  | [] => (0, [])
  end.

Fixpoint starts_with (p l : list ascii) : option (list ascii) :=
  match p, l with
  | [], _ => Some l
  | a :: p', b :: l' => if Ascii.eqb a b then starts_with p' l' else None
  | _ :: _, [] => None
  end.

(** Longest prefix that is an unsigned decimal literal
    ([digits[.digits][exp]] or [.digits[exp]]): its value and the rest. *)
Definition scan_unsigned_decimal (l : list ascii) : option (Q * list ascii) :=
  let '(ip, l1) := span_digits 10 l in
  let '(fp, l2) :=
    match l1 with
    | "."%char :: l' =>
        let '(fp, rest) := span_digits 10 l' in
        match ip, fp with
        | [], [] => ([], l1)
        | _, _ => (fp, rest)
        end
    | _ => ([], l1)
    end in
  match ip, fp with
  | [], [] => None
  | _, _ =>
      let '(e, l3) := scan_exponent l2 in
      let mant := digits_value 10 (ip ++ fp) in
      Some (Qred (inject_Z mant * pow10 (e - Z.of_nat (length fp))), l3)
  end.

(** Longest prefix that is a signed decimal literal, [Infinity] included. *)
Definition scan_decimal (l : list ascii) : option (number * list ascii) :=
  let '(neg, l1) := strip_sign l in
  match starts_with (list_ascii_of_string "Infinity") l1 with
  | Some rest => Some (Infinity neg, rest)
  | None =>
      match scan_unsigned_decimal l1 with
      | Some (q, rest) => Some (Fin (if neg then - q else q)%Q, rest)
      | None => None
      end
  end.

(** [parseFloat(s)] *)
Definition parseFloat (s : string) : number :=
  match scan_decimal (trim_left (list_ascii_of_string s)) with
  | Some (x, _) => x
  | None => NaN
  end.

(** A whole string that is [0x], [0o] or [0b] followed by digits. *)
Definition scan_radix_literal (l : list ascii) : option Z :=
  let radix :=
    match l with
    | "0"%char :: c :: _ =>
        if (Ascii.eqb c "x" || Ascii.eqb c "X")%bool then Some 16
        else if (Ascii.eqb c "o" || Ascii.eqb c "O")%bool then Some 8
        else if (Ascii.eqb c "b" || Ascii.eqb c "B")%bool then Some 2
        else None
    | _ => None
    end in
  match radix with
  | Some r =>
      match span_digits r (skipn 2 l) with
      | (d :: ds, []) => Some (digits_value r (d :: ds))
      | _ => None
      end
  | None => None
  end.

(** [Number(s)] on a string: the whole trimmed string has to be a numeric
    literal; the empty string is [0]. *)
Definition string_to_number (s : string) : number :=
  match trim (list_ascii_of_string s) with
  | [] => Fin 0
  | l =>
      match scan_radix_literal l with
      | Some n => of_Z n
      | None =>
          match scan_decimal l with
          | Some (x, []) => x
          | _ => NaN
          end
      end
  end.

(** [Number(v)] *)
Definition Number (v : value) : number :=
  match v with
  | VUndefined => NaN
  | VNull => Fin 0
  | VBool b => if b then Fin 1 else Fin 0
  | VNumber n => n
  | VString s => string_to_number s
  end.

End JS.

(** ** Regular expressions: the fragment of literal characters and [.] *)

Module Re.

Inductive atom :=
| Lit (c : ascii)
| Dot.

(** Characters with a syntactic role in a pattern. *)
Definition is_meta (c : ascii) : bool :=
  existsb (Ascii.eqb c) (list_ascii_of_string "\^$.|?*+()[]{}").

(** Canonicalisation under the [i] flag (ASCII). *)
Definition upper (c : ascii) : ascii :=
  let n := nat_of_ascii c in
  if ((97 <=? n) && (n <=? 122))%nat then ascii_of_nat (n - 32) else c.

Definition is_line_terminator (c : ascii) : bool :=
  let n := nat_of_ascii c in ((n =? 10) || (n =? 13))%nat.

(** A pattern of the fragment, read character by character; [None] when the
    pattern uses any other syntax. *)
Fixpoint parse (l : list ascii) : option (list atom) :=
  match l with
  | [] => Some []
  | c :: l' =>
      let a :=
        if Ascii.eqb c "." then Some Dot
        else if is_meta c then None
        else Some (Lit c) in
      match a, parse l' with
      | Some a, Some r => Some (a :: r)
      | _, _ => None
      end
  end.

Definition atom_matches (a : atom) (c : ascii) : bool :=
  match a with
  | Lit x => Ascii.eqb (upper x) (upper c)
  | Dot => negb (is_line_terminator c)
  end.

(** The pattern matches a prefix of the subject. *)
Fixpoint match_here (p : list atom) (l : list ascii) : bool :=
  match p, l with
  | [], _ => true
  | a :: p', c :: l' => atom_matches a c && match_here p' l'
  | _ :: _, [] => false
  end.

(** The pattern matches somewhere in the subject (an unanchored test). *)
Fixpoint match_anywhere (p : list atom) (l : list ascii) : bool :=
  match_here p l ||
  match l with
  | [] => false
  | _ :: l' => match_anywhere p l'
  end.

End Re.

(** A [RegExp] object built with the [i] flag: a pattern of the fragment, or
    whatever the engine makes of any other pattern. *)
Inductive RegExp :=
| Compiled (source : string) (atoms : list Re.atom)
| Foreign (source : string) (test : string -> bool).

Definition RegExp_test (r : RegExp) (s : string) : bool :=
  match r with
  | Compiled _ p => Re.match_anywhere p (list_ascii_of_string s)
  | Foreign _ f => f s
  end.

(** ** Data model *)

Record Review := mkReview {
  r_name : string;
  r_rating : JS.number;
  r_comment : string;
  r_user : string;
}.

Record Product := mkProduct {
  name : string;
  description : string;
  price : Q;
  discountPrice : option Q;
  images : list string;
  category : string;
  brand : string;
  stock : Z;
  specifications : list (string * string);
  tags : list string;
  featured : bool;
  status : string;
  ratings : JS.number;
  numOfReviews : nat;
  reviews : list Review;
  createdBy : string;
}.

(** The authenticated caller ([req.user]). *)
Record User := mkUser {
  u_id : string;
  u_name : string;
}.

(** [sortOptions]: the single sort key and its direction ([1] or [-1]). *)
Record SortOptions := mkSort {
  sortField : string;
  sortOrder : Z;
}.

(** ** Collaborators outside the controller *)

Class Platform := {
  (** the Product schema's validation, run by [save] *)
  schema_ok : Product -> bool;
  (** the store's [$text] search *)
  text_search : string -> Product -> bool;
  (** the store's ordering of a result set *)
  sort_docs : SortOptions -> list Product -> list Product;
  (** [new RegExp(src, 'i')] on a pattern outside the fragment of [Re]:
      [None] when the constructor throws a SyntaxError *)
  regexp_engine : string -> option (string -> bool);
  (** ordering a result set neither adds nor drops documents *)
  sort_docs_perm : forall s l, Permutation (sort_docs s l) l;
}.

(** A platform with a schema that accepts every document, no text index, the
    store's natural order and an engine that rejects what [Re] does not
    cover. *)
Definition permissive : Platform := {|
  schema_ok := fun _ => true;
  text_search := fun _ _ => false;
  sort_docs := fun _ l => l;
  regexp_engine := fun _ => None;
  sort_docs_perm := fun _ l => Permutation_refl l;
|}.

(** The same platform with a review schema that bounds ratings to [1..5]. *)
Definition rating_in_range (r : Review) : bool :=
  JS.le (JS.Fin 1) (r_rating r) && JS.le (r_rating r) (JS.Fin 5).

Definition bounded : Platform := {|
  schema_ok := fun p => forallb rating_in_range (reviews p);
  text_search := fun _ _ => false;
  sort_docs := fun _ l => l;
  regexp_engine := fun _ => None;
  sort_docs_perm := fun _ l => Permutation_refl l;
|}.

(** ** The document store *)

(** The Product collection, and the log of documents written by [save]. *)
Record World := mkWorld {
  docs : gmap string Product;
  saved : list Product;
}.

Definition findById (W : World) (id : string) : option Product :=
  docs W !! id.

(** [product.save()]: validation against the schema, then the write; [None]
    when validation throws. *)
Definition save `{Platform} (W : World) (id : string) (p : Product)
  : option World :=
  if schema_ok p
  then Some {| docs := <[id := p]> (docs W); saved := saved W ++ [p] |}
  else None.

Definition all_docs (W : World) : list Product :=
  (map_to_list (docs W)).*2.

(** ** Responses ([utils/apiResponse]) *)

Record Pagination := mkPagination {
  current : Z;
  pages : Z;
  total : Z;
  hasNext : bool;
  hasPrev : bool;
}.

Inductive Response :=
| sendSuccess (message : string) (data : list Product) (meta : option Pagination)
| sendCreated (message : string) (data : option Product)
| sendNotFound (message : string)
| sendError (message : string) (statusCode : option Z).

(** ** [getProducts]: the query plan *)

Record PriceRange := mkRange {
  gte : option JS.number;
  lte : option JS.number;
}.

(** The [query] object handed to [Product.find]. *)
Record Query := mkQuery {
  q_category : option string;
  q_brand : option RegExp;
  q_featured : option bool;
  q_status : string;
  q_price : option PriceRange;
  q_text : option string;
}.

Record Plan := mkPlan {
  page : Z;
  limit : Z;
  skip : Z;
  query : Query;
  sortOptions : SortOptions;
}.

(** The request's query string, [req.query]. *)
Abbreviation Params := (gmap string string).

(** [req.query.k] where the code tests it for truthiness: a present,
    non-empty string. *)
Definition param (req : Params) (k : string) : option string :=
  match req !! k with
  | Some s => if JS.truthy_string s then Some s else None
  | None => None
  end.

(** [parseInt(x) || d] *)
Definition or_default (n : option Z) (d : Z) : Z :=
  match n with
  | Some 0 | None => d
  | Some v => v
  end.

(** [new RegExp(src, 'i')]; [None] when the constructor throws. *)
Definition new_RegExp `{Platform} (src : string) : option RegExp :=
  match Re.parse (list_ascii_of_string src) with
  | Some atoms => Some (Compiled src atoms)
  | None => Foreign src <$> regexp_engine src
  end.

Definition price_filter (req : Params) : option PriceRange :=
  match param req "minPrice", param req "maxPrice" with
  | None, None => None
  | lo, hi => Some {| gte := JS.parseFloat <$> lo; lte := JS.parseFloat <$> hi |}
  end.

Definition sort_plan (req : Params) : SortOptions :=
  match param req "sort" with
  | Some s =>
      match s with
      | String "-" rest => {| sortField := rest; sortOrder := -1 |}
      | _ => {| sortField := s; sortOrder := 1 |}
      end
  | None => {| sortField := "createdAt"; sortOrder := -1 |}
  end.

(** The [brand] condition: absent, or the pattern built from the parameter;
    [None] when building it throws. *)
Definition brand_filter `{Platform} (req : Params) : option (option RegExp) :=
  match param req "brand" with
  | Some b => Some <$> new_RegExp b
  | None => Some None
  end.

(** The statements of [getProducts] up to "Execute query"; [None] when
    building the brand pattern throws. *)
Definition plan `{Platform} (req : Params) : option Plan :=
  let page := or_default (JS.parseInt (req !! "page")) 1 in
  let limit := or_default (JS.parseInt (req !! "limit")) 12 in
  let skip := (page - 1) * limit in
  match brand_filter req with
  | None => None
  | Some brand_re =>
      Some {|
        page := page; limit := limit; skip := skip;
        query := {|
          q_category := param req "category";
          q_brand := brand_re;
          q_featured := (fun f => String.eqb f "true") <$> param req "featured";
          q_status := default "active" (param req "status");
          q_price := price_filter req;
          q_text := param req "search";
        |};
        sortOptions := sort_plan req;
      |}
  end.

(** ** [getProducts]: the store's side *)

Definition holds {A} (c : option A) (test : A -> bool) : bool :=
  match c with Some a => test a | None => true end.

Definition in_range (r : PriceRange) (p : Product) : bool :=
  holds (gte r) (fun lo => JS.le lo (JS.Fin (price p))) &&
  holds (lte r) (fun hi => JS.le (JS.Fin (price p)) hi).

(** A document satisfies the query: the conjunction of its conditions. *)
Definition matches `{Platform} (q : Query) (p : Product) : bool :=
  holds (q_category q) (String.eqb (category p)) &&
  holds (q_brand q) (fun re => RegExp_test re (brand p)) &&
  holds (q_featured q) (Bool.eqb (featured p)) &&
  String.eqb (status p) (q_status q) &&
  holds (q_price q) (fun r => in_range r p) &&
  holds (q_text q) (fun s => text_search s p).

(** Casting the query against the schema: a [NaN] operand on the numeric
    path [price] is a cast error. *)
Definition castable (q : Query) : bool :=
  holds (q_price q) (fun r =>
    holds (gte r) (fun x => negb (JS.isNaN x)) &&
    holds (lte r) (fun x => negb (JS.isNaN x))).

(** [Product.find(query).sort(s)]: the sorted, unpaginated result. *)
Definition find_sorted `{Platform} (W : World) (q : Query) (s : SortOptions)
  : list Product :=
  sort_docs s (filter (fun p => matches q p = true) (all_docs W)).

(** [.skip(k).limit(n)] on a result: the store refuses a negative skip, reads
    a negative limit as its absolute value and [0] as no limit. *)
Definition window {A} (k n : Z) (l : list A) : option (list A) :=
  if k <? 0 then None
  else
    let rest := drop (Z.to_nat k) l in
    Some (if n =? 0 then rest else take (Z.to_nat (Z.abs n)) rest).

Definition countDocuments `{Platform} (W : World) (q : Query) : Z :=
  Z.of_nat (length (filter (fun p => matches q p = true) (all_docs W))).

(** [Math.ceil(a / b)] on integers, [b <> 0]. *)
Definition ceil_div (a b : Z) : Z := - ((- a) / b).

Definition server_error (what : string) : Response :=
  sendError what None.

(** The whole handler; every exception ends in the [catch] branch. *)
Definition getProducts `{Platform} (W : World) (req : Params) : Response :=
  match plan req with
  | None => server_error "Server error retrieving products"
  | Some pl =>
      let q := query pl in
      if castable q then
        match window (skip pl) (limit pl) (find_sorted W q (sortOptions pl)) with
        | Some products =>
            let total := countDocuments W q in
            let totalPages := ceil_div total (limit pl) in
            sendSuccess "Products retrieved successfully" products
              (Some {| current := page pl; pages := totalPages; total := total;
                       hasNext := page pl <? totalPages;
                       hasPrev := 1 <? page pl |})
        | None => server_error "Server error retrieving products"
        end
      else server_error "Server error retrieving products"
  end.

(** ** [updateProduct] *)

(** The fields read from [req.body]; [None] is [undefined]. *)
Record ProductBody := mkBody {
  b_name : option string;
  b_description : option string;
  b_price : option Q;
  b_discountPrice : option Q;
  b_images : option (list string);
  b_category : option string;
  b_brand : option string;
  b_stock : option Z;
  b_specifications : option (list (string * string));
  b_tags : option (list string);
  b_featured : option bool;
  b_status : option string;
}.

Definition no_fields : ProductBody := {|
  b_name := None; b_description := None; b_price := None;
  b_discountPrice := None; b_images := None; b_category := None;
  b_brand := None; b_stock := None; b_specifications := None;
  b_tags := None; b_featured := None; b_status := None;
|}.

(** [x || old] for a string, a number and an array or object. *)
Definition or_string (x : option string) (old : string) : string :=
  match x with
  | Some s => if JS.truthy_string s then s else old
  | None => old
  end.

Definition truthy_Q (q : Q) : bool := negb (JS.is_zero q).

Definition or_Q (x : option Q) (old : Q) : Q :=
  match x with
  | Some q => if truthy_Q q then q else old
  | None => old
  end.

Definition or_optQ (x : option Q) (old : option Q) : option Q :=
  match x with
  | Some q => if truthy_Q q then Some q else old
  | None => old
  end.

Definition or_object {A} (x : option A) (old : A) : A :=
  match x with Some a => a | None => old end.

(** [x !== undefined ? x : old] *)
Definition if_defined {A} (x : option A) (old : A) : A :=
  match x with Some a => a | None => old end.

(** The twelve assignments of [updateProduct]. *)
Definition assign_fields (product : Product) (b : ProductBody) : Product := {|
  name := or_string (b_name b) (name product);
  description := or_string (b_description b) (description product);
  price := or_Q (b_price b) (price product);
  discountPrice := or_optQ (b_discountPrice b) (discountPrice product);
  images := or_object (b_images b) (images product);
  category := or_string (b_category b) (category product);
  brand := or_string (b_brand b) (brand product);
  stock := if_defined (b_stock b) (stock product);
  specifications := or_object (b_specifications b) (specifications product);
  tags := or_object (b_tags b) (tags product);
  featured := if_defined (b_featured b) (featured product);
  status := or_string (b_status b) (status product);
  ratings := ratings product;
  numOfReviews := numOfReviews product;
  reviews := reviews product;
  createdBy := createdBy product;
|}.

Definition updateProduct `{Platform} (W : World) (id : string) (b : ProductBody)
  : Response * World :=
  match findById W id with
  | Some product =>
      let product' := assign_fields product b in
      match save W id product' with
      | Some W' => (sendSuccess "Product updated successfully" [product'] None, W')
      | None => (server_error "Server error updating product", W)
      end
  | None => (sendNotFound "Product not found", W)
  end.

(** ** [createProductReview] *)

Record ReviewBody := mkReviewBody {
  rating : JS.value;
  comment : string;
}.

(** [reviews.reduce((acc, item) => item.rating + acc, 0)] *)
Definition sum_ratings (rs : list Review) : JS.number :=
  fold_left (fun acc item => JS.add (r_rating item) acc) rs (JS.Fin 0).

(** The push of the new review and the two recomputed fields. *)
Definition push_review (product : Product) (user : User) (b : ReviewBody)
  : Product :=
  let review := {|
    r_name := u_name user;
    r_rating := JS.Number (rating b);
    r_comment := comment b;
    r_user := u_id user;
  |} in
  let reviews' := reviews product ++ [review] in
  {|
    name := name product;
    description := description product; price := price product;
    discountPrice := discountPrice product; images := images product;
    category := category product; brand := brand product;
    stock := stock product; specifications := specifications product;
    tags := tags product; featured := featured product;
    status := status product;
    ratings := JS.div (sum_ratings reviews') (JS.of_nat (length reviews'));
    numOfReviews := length reviews';
    reviews := reviews';
    createdBy := createdBy product;
  |}.

Definition alreadyReviewed (product : Product) (user : User) : option Review :=
  List.find (fun r => String.eqb (r_user r) (u_id user)) (reviews product).

(** Everything after [await Product.findById], given what it returned. *)
Definition review_commit `{Platform} (W : World) (id : string)
  (fetched : option Product) (user : User) (b : ReviewBody)
  : Response * World :=
  match fetched with
  | Some product =>
      match alreadyReviewed product user with
      | Some _ => (sendError "Product already reviewed" (Some 400), W)
      | None =>
          match save W id (push_review product user b) with
          | Some W' => (sendCreated "Review added successfully" None, W')
          | None => (server_error "Server error creating review", W)
          end
      end
  | None => (sendNotFound "Product not found", W)
  end.

Definition createProductReview `{Platform} (W : World) (id : string)
  (user : User) (b : ReviewBody) : Response * World :=
  review_commit W id (findById W id) user b.

(** *** Requests in flight

    A handler gives control back to the event loop at its first [await]: a
    request is either not started, holding the document it fetched, or
    answered. *)
Inductive Task :=
| Pending (id : string) (user : User) (b : ReviewBody)
| Fetched (id : string) (doc : option Product) (user : User) (b : ReviewBody)
| Done (r : Response).

Definition step `{Platform} (W : World) (t : Task) : Task * World :=
  match t with
  | Pending id user b => (Fetched id (findById W id) user b, W)
  | Fetched id doc user b =>
      let '(r, W') := review_commit W id doc user b in (Done r, W')
  | Done r => (Done r, W)
  end.

(** Run the requests under a schedule: each entry lets one request take its
    next step. *)
Fixpoint run `{Platform} (schedule : list nat) (W : World) (ts : list Task)
  : list Task * World :=
  match schedule with
  | [] => (ts, W)
  | i :: rest =>
      match ts !! i with
      | Some t => let '(t', W') := step W t in run rest W' (<[i := t']> ts)
      | None => run rest W ts
      end
  end.


(** ** [getProductById] and [deleteProduct] *)

(** The joins made by [populate] (category, creator, reviewers) are not part
    of the model: the answer carries the stored document. *)
Definition getProductById (W : World) (id : string) : Response :=
  match findById W id with
  | Some product => sendSuccess "Product retrieved successfully" [product] None
  | None => sendNotFound "Product not found"
  end.

(** [Product.findByIdAndDelete(id)] *)
Definition findByIdAndDelete (W : World) (id : string) : World :=
  {| docs := delete id (docs W); saved := saved W |}.

Definition deleteProduct (W : World) (id : string) : Response * World :=
  match findById W id with
  | Some _ =>
      (sendSuccess "Product deleted successfully" [] None,
       findByIdAndDelete W id)
  | None => (sendNotFound "Product not found", W)
  end.

(** ** The generator script

    The Python loop that writes the project files ([for file_path, content
    in ....items()]), with [os.path.dirname] as [posixpath] defines it and
    [str.strip] on ASCII text. The file system is seen through the set of
    paths known to exist, and the loop through the calls it makes. *)

Module Py.

(** [str.isspace] on an ASCII character. *)
Definition is_space (c : ascii) : bool :=
  let n := nat_of_ascii c in
  ((9 <=? n) && (n <=? 13))%nat || ((28 <=? n) && (n <=? 32))%nat.















End Py.

(** ** Reference notions used in the statements *)





(** The review that a submission appends. *)
Definition review_of (s : User * ReviewBody) : Review :=
  {| r_name := u_name (fst s); r_rating := JS.Number (rating (snd s));
     r_comment := comment (snd s); r_user := u_id (fst s) |}.






(** The world after a successful [save] of [p]. *)
Definition written (W : World) (id : string) (p : Product) : World :=
  {| docs := <[id := p]> (docs W); saved := saved W ++ [p] |}.

Definition is_created (r : Response) : bool :=
  match r with sendCreated _ _ => true | _ => false end.

(** The price, featured and brand conditions of a query, each on its own. *)
Definition price_ok (q : Query) (p : Product) : bool :=
  holds (q_price q) (fun r => in_range r p).

Definition featured_ok (q : Query) (p : Product) : bool :=
  holds (q_featured q) (Bool.eqb (featured p)).

Definition brand_ok (q : Query) (p : Product) : bool :=
  holds (q_brand q) (fun re => RegExp_test re (brand p)).

(** The stored products that satisfy a query. *)
Definition matching `{Platform} (W : World) (q : Query) : list Product :=
  filter (fun p => matches q p = true) (all_docs W).

(** No product of the store holds two reviews by the same user. *)
Definition one_review_per_user (W : World) : Prop :=
  forall id p, findById W id = Some p -> NoDup (map r_user (reviews p)).

(** A finite number between 1 and 5. *)
Definition from_1_to_5 (x : JS.number) : Prop :=
  exists q, x = JS.Fin q /\ (1 <= q)%Q /\ (q <= 5)%Q.

(** The product a request in flight is about. *)
Definition task_id (t : Task) : option string :=
  match t with
  | Pending id _ _ | Fetched id _ _ _ => Some id
  | Done _ => None
  end.

(** A review request: the product, the caller and the body. *)
Record Submission := mkSubmission {
  s_id : string;
  s_user : User;
  s_body : ReviewBody;
}.

(** The request handled alone, from the world [W]. *)
Definition alone `{Platform} (W : World) (s : Submission) : Response * World :=
  createProductReview W (s_id s) (s_user s) (s_body s).

(** The state of a request that has taken [k] steps, when nothing but its own
    steps has touched its product since the world [W]. *)
Definition progress `{Platform} (W : World) (s : Submission) (k : nat) : Task :=
  match k with
  | O => Pending (s_id s) (s_user s) (s_body s)
  | S O => Fetched (s_id s) (findById W (s_id s)) (s_user s) (s_body s)
  | _ => Done (fst (alone W s))
  end.

(** The number of steps each request has taken under a schedule. *)
Definition steps_taken (schedule : list nat) (ks : list nat) : list nat :=
  fold_left (fun ks i => alter S i ks) schedule ks.

(** What the store holds for the product of a request that has taken [k]
    steps. *)
Definition doc_after `{Platform} (W0 : World) (s : Submission) (k : nat)
  : option Product :=
  match k with
  | O | S O => findById W0 (s_id s)
  | _ => findById (snd (alone W0 s)) (s_id s)
  end.

(** The store agrees with the steps that the requests have taken. *)
Definition in_step `{Platform} (W0 W : World) (subs : list Submission)
  (ks : list nat) : Prop :=
  forall i s k, subs !! i = Some s -> ks !! i = Some k ->
                findById W (s_id s) = doc_after W0 s k.

(** ** Sample data *)

Definition widget : Product := {|
  name := "Widget"; description := "A sturdy widget";
  price := 100; discountPrice := Some 80%Q; images := [];
  category := "c1"; brand := "Acme"; stock := 3; specifications := [];
  tags := []; featured := false; status := "active";
  ratings := JS.Fin 0; numOfReviews := 0%nat; reviews := [];
  createdBy := "admin";
|}.

Definition shop : World := {| docs := {[ "p1"%string := widget ]}; saved := [] |}.

Definition alice : User := {| u_id := "u1"; u_name := "Alice" |}.
Definition bob : User := {| u_id := "u2"; u_name := "Bob" |}.

Definition stars (n : Z) : ReviewBody :=
  {| rating := JS.VNumber (JS.of_Z n); comment := "ok" |}.

(** [widget] after the review of Alice. *)
Definition reviewed_once : Product := push_review widget alice (stars 5).

Definition shop1 : World :=
  {| docs := {[ "p1"%string := reviewed_once ]}; saved := [] |}.



(** A featured product, and update bodies that supply one or two fields. *)
Definition gadget : Product := {|
  name := "Gadget"; description := "A shiny gadget";
  price := 40; discountPrice := None; images := [];
  category := "c1"; brand := "Globex"; stock := 7; specifications := [];
  tags := []; featured := true; status := "active";
  ratings := JS.Fin 0; numOfReviews := 0%nat; reviews := [];
  createdBy := "admin";
|}.

Definition showroom : World :=
  {| docs := {[ "p2"%string := gadget ]}; saved := [] |}.

(** A store with both products. *)
Definition mall : World :=
  {| docs := {[ "p1"%string := widget; "p2"%string := gadget ]}; saved := [] |}.

Definition only_price (q : Q) : ProductBody := {|
  b_name := None; b_description := None; b_price := Some q;
  b_discountPrice := None; b_images := None; b_category := None;
  b_brand := None; b_stock := None; b_specifications := None;
  b_tags := None; b_featured := None; b_status := None;
|}.

Definition only_description (s : string) : ProductBody := {|
  b_name := None; b_description := Some s; b_price := None;
  b_discountPrice := None; b_images := None; b_category := None;
  b_brand := None; b_stock := None; b_specifications := None;
  b_tags := None; b_featured := None; b_status := None;
|}.

Definition only_stock_featured (n : Z) (f : bool) : ProductBody := {|
  b_name := None; b_description := None; b_price := None;
  b_discountPrice := None; b_images := None; b_category := None;
  b_brand := None; b_stock := Some n; b_specifications := None;
  b_tags := None; b_featured := Some f; b_status := None;
|}.

(** * Properties *)

(** ** The literal scanners on sample inputs *)

Example parseInt_12abc : JS.parseInt (Some " 12abc"%string) = Some 12.
Proof. reflexivity. Qed.
Example parseInt_abc : JS.parseInt (Some "abc"%string) = None.
Proof. reflexivity. Qed.
Example parseInt_neg : JS.parseInt (Some "-2"%string) = Some (-2).
Proof. reflexivity. Qed.
Example parseInt_hex : JS.parseInt (Some "0x1f"%string) = Some 31.
Proof. reflexivity. Qed.
Example parseFloat_90 : JS.parseFloat "90" = JS.Fin 90.
Proof. reflexivity. Qed.
Example parseFloat_frac : JS.parseFloat "12.5e1kg" = JS.Fin 125.
Proof. reflexivity. Qed.
Example parseFloat_small : JS.parseFloat "-.5e-1" = JS.Fin (-1 # 20).
Proof. reflexivity. Qed.
Example parseFloat_abc : JS.parseFloat "abc" = JS.NaN.
Proof. reflexivity. Qed.
Example parseFloat_dangling_e : JS.parseFloat "1e" = JS.Fin 1.
Proof. reflexivity. Qed.
Example Number_7 : JS.Number (JS.VString " 7 ") = JS.Fin 7.
Proof. reflexivity. Qed.
Example Number_dangling_e : JS.Number (JS.VString "1e") = JS.NaN.
Proof. reflexivity. Qed.
Example Number_hex : JS.Number (JS.VString "0x10") = JS.Fin 16.
Proof. reflexivity. Qed.
Example Number_empty : JS.Number (JS.VString EmptyString) = JS.Fin 0.
Proof. reflexivity. Qed.
Example Number_five_stars : JS.Number (JS.VString "five") = JS.NaN.
Proof. reflexivity. Qed.
Example backslash_is_meta : Re.is_meta (ascii_of_nat 92) = true.
Proof. reflexivity. Qed.
Example parse_dot :
  Re.parse (list_ascii_of_string "a.m") =
  Some [Re.Lit "a"%char; Re.Dot; Re.Lit "m"%char].
Proof. reflexivity. Qed.
Example parse_group : Re.parse (list_ascii_of_string "(acme") = None.
Proof. reflexivity. Qed.
Example search_ignores_case :
  Re.match_anywhere [Re.Lit "c"%char; Re.Lit "M"%char]
    (list_ascii_of_string "Acme") = true.
Proof. reflexivity. Qed.

(** ** Arithmetic of the number model *)

Section NumberFacts.
Import JS.










End NumberFacts.

(** ** The review aggregate *)

Section Aggregate.
Import JS.



Lemma push_review_reviews product user b :
  reviews (push_review product user b) =
  reviews product ++
    [{| r_name := u_name user; r_rating := Number (rating b);
        r_comment := comment b; r_user := u_id user |}].
Proof. reflexivity. Qed.


End Aggregate.

(** ** [createProductReview] *)

Section ReviewHandler.
Context `{Platform}.

Lemma save_spec W id p :
  save W id p = if schema_ok p then Some (written W id p) else None.
Proof. reflexivity. Qed.

(** The four ways the handler can end. *)
Lemma createProductReview_outcome W id user b :
  match findById W id with
  | None =>
      createProductReview W id user b = (sendNotFound "Product not found", W)
  | Some p0 =>
      match alreadyReviewed p0 user with
      | Some _ =>
          createProductReview W id user b =
          (sendError "Product already reviewed" (Some 400), W)
      | None =>
          if schema_ok (push_review p0 user b)
          then createProductReview W id user b =
               (sendCreated "Review added successfully" None,
                written W id (push_review p0 user b))
          else createProductReview W id user b =
               (server_error "Server error creating review", W)
      end
  end.
Proof.
  unfold createProductReview, review_commit.
  destruct (findById W id) as [p0|]; [|reflexivity].
  destruct (alreadyReviewed p0 user); [reflexivity|].
  rewrite save_spec. now destruct (schema_ok _).
Qed.

Lemma created_inv W id user b r W' :
  createProductReview W id user b = (r, W') ->
  is_created r = true ->
  exists p0,
    findById W id = Some p0 /\
    alreadyReviewed p0 user = None /\
    schema_ok (push_review p0 user b) = true /\
    W' = written W id (push_review p0 user b).
Proof.
  intros E Hr. pose proof (createProductReview_outcome W id user b) as O.
  destruct (findById W id) as [p0|].
  - destruct (alreadyReviewed p0 user) eqn:A.
    + rewrite O in E. inversion E; subst. discriminate.
    + destruct (schema_ok (push_review p0 user b)) eqn:S.
      * rewrite O in E. inversion E; subst. exists p0. auto.
      * rewrite O in E. inversion E; subst. discriminate.
  - rewrite O in E. inversion E; subst. discriminate.
Qed.

Lemma alreadyReviewed_found product user r :
  In r (reviews product) -> r_user r = u_id user ->
  exists r', alreadyReviewed product user = Some r'.
Proof.
  intros Hin Hu. unfold alreadyReviewed.
  destruct (List.find _ (reviews product)) as [r'|] eqn:F; [now exists r'|].
  eapply find_none in F; [|exact Hin]. simpl in F.
  rewrite Hu, String.eqb_refl in F. discriminate.
Qed.

Lemma alreadyReviewed_none product user :
  alreadyReviewed product user = None <->
  ~ In (u_id user) (map r_user (reviews product)).
Proof.
  unfold alreadyReviewed. split.
  - intros F Hin. apply in_map_iff in Hin as (r & Hu & Hin).
    eapply find_none in F; [|exact Hin]. simpl in F.
    rewrite Hu, String.eqb_refl in F. discriminate.
  - intros Hn. destruct (List.find _ _) as [r|] eqn:F; [|reflexivity].
    apply find_some in F as [Hin E]. apply String.eqb_eq in E.
    exfalso. apply Hn. apply in_map_iff. now exists r.
Qed.
End ReviewHandler.



(** C2. When the product already holds a review whose [user] is the caller's
    id, [createProductReview] answers with the error "Product already
    reviewed" and status 400, which no server-error answer equals, and the
    world is returned as it was: same documents (so the same [reviews],
    [numOfReviews] and [ratings]) and nothing added to the write log. *)
Theorem duplicate_review_rejected `{Platform} W id user b product r :
  findById W id = Some product ->
  In r (reviews product) ->
  r_user r = u_id user ->
  createProductReview W id user b =
    (sendError "Product already reviewed" (Some 400), W) /\
  (forall what,
     fst (createProductReview W id user b) <> server_error what) /\
  findById (snd (createProductReview W id user b)) id = Some product /\
  saved (snd (createProductReview W id user b)) = saved W.
Proof.
  intros F Hin Hu.
  destruct (alreadyReviewed_found product user r Hin Hu) as [r' A].
  pose proof (createProductReview_outcome W id user b) as O.
  rewrite F, A in O. rewrite O. simpl. repeat split; trivial.
  intros what. unfold server_error. discriminate.
Qed.

Lemma duplicate_review_rejected_witness :
  @createProductReview permissive shop1 "p1" alice (stars 1) =
    (sendError "Product already reviewed" (Some 400), shop1) /\
  (forall what,
     fst (@createProductReview permissive shop1 "p1" alice (stars 1))
     <> server_error what) /\
  findById (snd (@createProductReview permissive shop1 "p1" alice (stars 1)))
    "p1" = Some reviewed_once /\
  saved (snd (@createProductReview permissive shop1 "p1" alice (stars 1)))
    = saved shop1.
Proof.
  apply (@duplicate_review_rejected permissive shop1 "p1"%string alice
           (stars 1) reviewed_once
           {| r_name := "Alice"; r_rating := JS.Fin 5; r_comment := "ok";
              r_user := "u1" |}).
  - reflexivity.
  - simpl. left. reflexivity.
  - reflexivity.
Defined.

(** C3, as the code has it. The handler does not inspect the rating: for a
    product that exists and that the caller has not reviewed, the review
    carrying [Number(rating)] is appended to the document given to [save];
    the call succeeds exactly when the schema accepts that document, and
    otherwise ends with the generic server error and an unchanged world. *)
Theorem rating_not_validated_by_handler `{Platform} W id user b p0 :
  findById W id = Some p0 ->
  alreadyReviewed p0 user = None ->
  let review := {| r_name := u_name user; r_rating := JS.Number (rating b);
                   r_comment := comment b; r_user := u_id user |} in
  let p := push_review p0 user b in
  reviews p = reviews p0 ++ [review] /\
  (schema_ok p = true ->
     createProductReview W id user b =
       (sendCreated "Review added successfully" None, written W id p)) /\
  (schema_ok p = false ->
     createProductReview W id user b =
       (server_error "Server error creating review", W)).
Proof.
  intros F A review p.
  pose proof (createProductReview_outcome W id user b) as O.
  rewrite F, A in O. fold p in O.
  split; [reflexivity|].
  split; intros S; rewrite S in O; exact O.
Qed.

Lemma rating_not_validated_by_handler_witness :
  reviews (push_review widget alice (stars 7)) =
    reviews widget ++
      [{| r_name := "Alice"; r_rating := JS.Number (rating (stars 7));
          r_comment := "ok"; r_user := "u1" |}] /\
  (@schema_ok permissive (push_review widget alice (stars 7)) = true ->
     @createProductReview permissive shop "p1" alice (stars 7) =
       (sendCreated "Review added successfully" None,
        written shop "p1" (push_review widget alice (stars 7)))) /\
  (@schema_ok permissive (push_review widget alice (stars 7)) = false ->
     @createProductReview permissive shop "p1" alice (stars 7) =
       (server_error "Server error creating review", shop)).
Proof.
  apply (@rating_not_validated_by_handler permissive shop "p1"%string alice
           (stars 7) widget); reflexivity.
Defined.

(** A rating of 7, and a rating that is not a number at all, are appended and
    counted when the schema lets the document through; a rating of 4.5 is
    appended and counted even under the schema that bounds ratings to
    [1..5]; and when that schema refuses the rating 7 the call ends with the
    generic server error, not with a rejection of the input. *)
Lemma invalid_rating_is_stored :
  (exists p,
     @createProductReview permissive shop "p1" alice (stars 7) =
       (sendCreated "Review added successfully" None, written shop "p1" p) /\
     map r_rating (reviews p) = [JS.Fin 7] /\
     numOfReviews p = 1%nat /\
     ratings p = JS.Fin 7) /\
  (exists p,
     @createProductReview permissive shop "p1" alice
       {| rating := JS.VString "great"; comment := "ok" |} =
       (sendCreated "Review added successfully" None, written shop "p1" p) /\
     map r_rating (reviews p) = [JS.NaN] /\
     numOfReviews p = 1%nat) /\
  (exists p,
     @createProductReview bounded shop "p1" alice
       {| rating := JS.VNumber (JS.Fin (9 # 2)); comment := "ok" |} =
       (sendCreated "Review added successfully" None, written shop "p1" p) /\
     map r_rating (reviews p) = [JS.Fin (9 # 2)] /\
     numOfReviews p = 1%nat) /\
  @createProductReview bounded shop "p1" alice (stars 7) =
    (sendError "Server error creating review" None, shop).
Proof.
  split; [|split; [|split]].
  - exists (push_review widget alice (stars 7)). repeat split.
  - exists (push_review widget alice
              {| rating := JS.VString "great"; comment := "ok" |}).
    repeat split.
  - exists (push_review widget alice
              {| rating := JS.VNumber (JS.Fin (9 # 2)); comment := "ok" |}).
    repeat split.
  - reflexivity.
Qed.

(** ** Submissions in sequence and in flight *)

Section Sequential.
Context `{Platform}.



End Sequential.

Section Scheduling.
Context `{Platform}.



Lemma run_cons i rest W ts t :
  ts !! i = Some t ->
  run (i :: rest) W ts = run rest (snd (step W t)) (<[i := fst (step W t)]> ts).
Proof. intros L. simpl. rewrite L. now destruct (step W t). Qed.

End Scheduling.




(** ** [getProducts]: pagination *)

Section Pagination.
Context `{Platform}.

Lemma plan_page_limit req pl :
  plan req = Some pl ->
  page pl = or_default (JS.parseInt (req !! "page")) 1 /\
  limit pl = or_default (JS.parseInt (req !! "limit")) 12 /\
  skip pl = (page pl - 1) * limit pl.
Proof.
  unfold plan. destruct (brand_filter req); [|discriminate].
  intros E. injection E as <-. simpl. auto.
Qed.

(** Neither [page] nor [limit] is ever zero. *)
Lemma or_default_nonzero n d : d <> 0 -> or_default n d <> 0.
Proof. destruct n as [[| |]|]; simpl; intros; lia || trivial. Qed.

(** A [page] or [limit] without a leading integer falls back to the
    default. *)
Lemma malformed_page_limit_default req pl :
  plan req = Some pl ->
  (JS.parseInt (req !! "page") = None -> page pl = 1) /\
  (JS.parseInt (req !! "limit") = None -> limit pl = 12).
Proof.
  intros P. destruct (plan_page_limit req pl P) as (-> & -> & _).
  split; intros ->; reflexivity.
Qed.

Lemma window_in_range {A} (k n : Z) (l : list A) :
  0 <= k -> 1 <= n ->
  window k n l = Some (take (Z.to_nat n) (drop (Z.to_nat k) l)).
Proof.
  intros Hk Hn. unfold window.
  destruct (k <? 0) eqn:K; [lia|].
  destruct (n =? 0) eqn:N; [lia|].
  now rewrite Z.abs_eq by lia.
Qed.

Lemma window_sublist {A} (k n : Z) (l data : list A) :
  window k n l = Some data -> forall x, In x data -> In x l.
Proof.
  unfold window. destruct (k <? 0); [discriminate|].
  intros E x Hx. injection E as <-.
  apply list_elem_of_In. apply list_elem_of_In in Hx.
  destruct (n =? 0).
  - now apply (subseteq_drop (Z.to_nat k) l).
  - apply (subseteq_drop (Z.to_nat k) l).
    now apply (subseteq_take (Z.to_nat (Z.abs n))).
Qed.


(** Every listed document is a stored one that satisfies the query. *)
Lemma getProducts_items_match W req msg data meta :
  getProducts W req = sendSuccess msg data meta ->
  exists pl,
    plan req = Some pl /\
    forall p, In p data -> In p (all_docs W) /\ matches (query pl) p = true.
Proof.
  unfold getProducts. destruct (plan req) as [pl|]; [|discriminate].
  destruct (castable (query pl)); [|discriminate].
  destruct (window _ _ _) as [products|] eqn:Win; [|discriminate].
  intros E. injection E as _ <- _. exists pl. split; [reflexivity|].
  intros p Hp. eapply window_sublist in Hp; [|exact Win].
  unfold find_sorted in Hp. apply list_elem_of_In in Hp.
  rewrite sort_docs_perm in Hp.
  apply list_elem_of_filter in Hp as [M Hin].
  split; [now apply list_elem_of_In | exact M].
Qed.
End Pagination.




(** ** [getProducts]: the filters *)

Section Filters.
Context `{Platform}.

Lemma plan_query req pl :
  plan req = Some pl ->
  q_featured (query pl)
    = (fun f => String.eqb f "true") <$> param req "featured" /\
  q_price (query pl) = price_filter req /\
  brand_filter req = Some (q_brand (query pl)).
Proof.
  unfold plan. destruct (brand_filter req); [|discriminate].
  intros E. injection E as <-. simpl. auto.
Qed.

(** A query is a conjunction: a match satisfies each condition. *)
Lemma matches_conditions q p :
  matches q p = true ->
  brand_ok q p = true /\ featured_ok q p = true /\ price_ok q p = true /\
  status p = q_status q.
Proof.
  unfold matches, brand_ok, featured_ok, price_ok.
  rewrite !andb_true_iff.
  intros (((((_ & B) & Ft) & St) & Pr) & _).
  apply String.eqb_eq in St. auto.
Qed.



End Filters.



(** C5 (what the code does; the claim asks for the opposite). A [minPrice]
    or [maxPrice] that [parseFloat] cannot read is not dropped: it becomes
    the operand [NaN] of the price condition in the query given to the
    store. *)
Theorem malformed_price_bound_reaches_query `{Platform} req pl :
  plan req = Some pl ->
  (forall s, param req "minPrice" = Some s -> JS.parseFloat s = JS.NaN ->
     exists r, q_price (query pl) = Some r /\ gte r = Some JS.NaN) /\
  (forall s, param req "maxPrice" = Some s -> JS.parseFloat s = JS.NaN ->
     exists r, q_price (query pl) = Some r /\ lte r = Some JS.NaN).
Proof.
  intros P. destruct (plan_query req pl P) as (_ & -> & _).
  unfold price_filter. split; intros s -> E.
  - destruct (param req "maxPrice"); eexists; simpl; rewrite E; eauto.
  - destruct (param req "minPrice"); eexists; simpl; rewrite E; eauto.
Qed.

Lemma malformed_price_bound_reaches_query_witness :
  exists pl,
    @plan permissive {[ "minPrice"%string := "abc"%string ]} = Some pl /\
    exists r, q_price (query pl) = Some r /\ gte r = Some JS.NaN.
Proof.
  destruct (@plan permissive {[ "minPrice"%string := "abc"%string ]})
    as [pl|] eqn:P; [|discriminate P].
  exists pl. split; [reflexivity|].
  apply (proj1 (@malformed_price_bound_reaches_query permissive _ pl P)
           "abc"%string); reflexivity.
Defined.

(** With the operand rejected by the store's cast, the request ends in the
    [catch] branch. *)
Lemma malformed_minPrice_server_error :
  @getProducts permissive shop {[ "minPrice"%string := "abc"%string ]} =
  sendError "Server error retrieving products" None.
Proof. reflexivity. Qed.



(** ** [getProducts]: the brand pattern *)

Section Brand.
Context `{Platform}.





End Brand.




(** ** [updateProduct] *)

Section Update.
Context `{Platform}.

(** A body without fields changes nothing. *)
Lemma assign_no_fields product : assign_fields product no_fields = product.
Proof. now destruct product. Qed.

(** [stock] and [featured] take any supplied value. *)
Lemma assign_stock_featured product b :
  (forall n, b_stock b = Some n -> stock (assign_fields product b) = n) /\
  (forall f, b_featured b = Some f ->
             featured (assign_fields product b) = f) /\
  (b_stock b = None -> stock (assign_fields product b) = stock product) /\
  (b_featured b = None ->
   featured (assign_fields product b) = featured product).
Proof.
  simpl. repeat split; intros; simpl;
    match goal with E : _ = _ |- _ => now rewrite E end.
Qed.

(** The fields assigned with [||] take a supplied value when it is truthy
    and keep the stored one otherwise. *)
Lemma assign_price product b :
  price (assign_fields product b) =
  match b_price b with
  | Some q => if Qeq_bool q 0 then price product else q
  | None => price product
  end.
Proof.
  simpl. unfold or_Q, truthy_Q, JS.is_zero.
  destruct (b_price b) as [q|]; [|reflexivity]. now destruct (Qeq_bool q 0).
Qed.

Lemma assign_description product b :
  description (assign_fields product b) =
  match b_description b with
  | Some EmptyString | None => description product
  | Some s => s
  end.
Proof.
  simpl. unfold or_string.
  destruct (b_description b) as [[|c s]|]; reflexivity.
Qed.

Lemma updateProduct_outcome W id b :
  match findById W id with
  | None => updateProduct W id b = (sendNotFound "Product not found", W)
  | Some product =>
      if schema_ok (assign_fields product b)
      then updateProduct W id b =
           (sendSuccess "Product updated successfully"
              [assign_fields product b] None,
            written W id (assign_fields product b))
      else updateProduct W id b =
           (server_error "Server error updating product", W)
  end.
Proof.
  unfold updateProduct. destruct (findById W id) as [product|]; [|reflexivity].
  rewrite save_spec. now destruct (schema_ok _).
Qed.
End Update.

(** C9 (what the code does; the claim asks for the opposite). An update
    whose body supplies [price: 0] succeeds and leaves the stored price at
    100, and one that supplies an empty [description] leaves the stored
    description, while [stock: 0] and [featured: false] are written. *)
Theorem update_ignores_falsy_price :
  (exists p,
     @updateProduct permissive shop "p1" (only_price 0) =
       (sendSuccess "Product updated successfully" [p] None, written shop "p1" p) /\
     price widget = 100%Q /\ price p = 100%Q) /\
  (exists p,
     @updateProduct permissive shop "p1" (only_description EmptyString) =
       (sendSuccess "Product updated successfully" [p] None, written shop "p1" p) /\
     description p = description widget) /\
  (exists p,
     @updateProduct permissive showroom "p2" (only_stock_featured 0 false) =
       (sendSuccess "Product updated successfully" [p] None,
        written showroom "p2" p) /\
     (stock gadget = 7 /\ stock p = 0) /\
     (featured gadget = true /\ featured p = false)).
Proof.
  split; [|split]; eexists; (split; [reflexivity|]); repeat split.
Qed.

(** * Further properties of the handlers *)

(** ** [getProducts]: what a listing carries *)

Section Listing.
Context `{Platform}.

Lemma ceil_div_bounds a b :
  1 <= b -> (ceil_div a b - 1) * b < a <= ceil_div a b * b.
Proof.
  intros Hb. unfold ceil_div.
  pose proof (Z.div_mod (- a) b ltac:(lia)) as D.
  pose proof (Z.mod_pos_bound (- a) b ltac:(lia)) as M.
  nia.
Qed.

Lemma ceil_div_above a b n :
  1 <= b -> (n < ceil_div a b <-> n * b < a).
Proof.
  intros Hb. pose proof (ceil_div_bounds a b Hb) as B. split; intros; nia.
Qed.

Lemma find_sorted_perm W q s : Permutation (find_sorted W q s) (matching W q).
Proof. apply sort_docs_perm. Qed.

Lemma find_sorted_length W q s :
  Z.of_nat (length (find_sorted W q s)) = countDocuments W q.
Proof.
  unfold countDocuments. f_equal. apply Permutation_length, find_sorted_perm.
Qed.

(** A successful listing, taken apart. *)
Lemma getProducts_inv W req msg data meta :
  getProducts W req = sendSuccess msg data meta ->
  exists pl,
    plan req = Some pl /\
    castable (query pl) = true /\
    window (skip pl) (limit pl)
      (find_sorted W (query pl) (sortOptions pl)) = Some data /\
    meta = Some {| current := page pl;
                   pages := ceil_div (countDocuments W (query pl)) (limit pl);
                   total := countDocuments W (query pl);
                   hasNext := page pl <?
                              ceil_div (countDocuments W (query pl)) (limit pl);
                   hasPrev := 1 <? page pl |}.
Proof.
  unfold getProducts. destruct (plan req) as [pl|]; [|discriminate].
  destruct (castable (query pl)) eqn:C; [|discriminate].
  destruct (window _ _ _) as [products|] eqn:Win; [|discriminate].
  intros E. injection E as _ <- <-. exists pl. auto.
Qed.
End Listing.

(** X1. The pagination block of a listing: [total] counts the stored
    products that satisfy the query, whatever the page; neither [page] nor
    [limit] is 0; [hasPrev] says that the page is past the first; and for a
    limit of at least 1, [pages] is the least number of pages that hold
    [total] items and [hasNext] says that items remain after this page. *)
Theorem listing_metadata `{Platform} W req msg data meta :
  getProducts W req = sendSuccess msg data meta ->
  exists pl m,
    plan req = Some pl /\ meta = Some m /\
    current m = page pl /\ page pl <> 0 /\ limit pl <> 0 /\
    total m = Z.of_nat (length (matching W (query pl))) /\
    (hasPrev m = true <-> 1 < page pl) /\
    (1 <= limit pl ->
       (pages m - 1) * limit pl < total m <= pages m * limit pl /\
       (hasNext m = true <-> page pl * limit pl < total m)).
Proof.
  intros G. destruct (getProducts_inv W req msg data meta G)
    as (pl & P & _ & _ & ->).
  destruct (plan_page_limit req pl P) as (Hp & Hl & _).
  eexists pl, _. split; [exact P|]. split; [reflexivity|]. simpl.
  split; [reflexivity|].
  split; [rewrite Hp; apply or_default_nonzero; lia|].
  split; [rewrite Hl; apply or_default_nonzero; lia|].
  split; [reflexivity|].
  split; [apply Z.ltb_lt|].
  intros Hlim. split; [now apply ceil_div_bounds|].
  rewrite Z.ltb_lt. now apply ceil_div_above.
Qed.

Lemma listing_metadata_witness :
  exists pl m,
    @plan permissive ∅ = Some pl /\
    Some {| current := 1; pages := 1; total := 1;
            hasNext := false; hasPrev := false |} = Some m /\
    current m = page pl /\ page pl <> 0 /\ limit pl <> 0 /\
    total m = Z.of_nat (length (@matching permissive shop (query pl))) /\
    (hasPrev m = true <-> 1 < page pl) /\
    (1 <= limit pl ->
       (pages m - 1) * limit pl < total m <= pages m * limit pl /\
       (hasNext m = true <-> page pl * limit pl < total m)).
Proof.
  apply (@listing_metadata permissive shop ∅
           "Products retrieved successfully" [widget]).
  reflexivity.
Defined.

(** X2. For a page and a limit of at least 1, the listing holds exactly the
    items that remain after the skipped ones, up to [limit] of them: their
    number is [min limit (max 0 (total - skip))], so a page past the last one
    is empty. *)
Theorem listing_length `{Platform} W req msg data m pl :
  getProducts W req = sendSuccess msg data (Some m) ->
  plan req = Some pl ->
  1 <= page pl -> 1 <= limit pl ->
  Z.of_nat (length data) = Z.min (limit pl) (Z.max 0 (total m - skip pl)) /\
  (total m <= skip pl -> data = []).
Proof.
  intros G P Hp Hl.
  destruct (getProducts_inv W req msg data _ G) as (pl' & P' & _ & Win & E).
  rewrite P in P'. injection P' as <-. injection E as ->. simpl total.
  destruct (plan_page_limit req pl P) as (_ & _ & Hs).
  assert (0 <= skip pl) as Hk by (rewrite Hs; nia).
  rewrite window_in_range in Win by assumption. injection Win as <-.
  rewrite <- (find_sorted_length W (query pl) (sortOptions pl)).
  set (l := find_sorted W (query pl) (sortOptions pl)).
  assert (Len : Z.of_nat (length (take (Z.to_nat (limit pl))
                                    (drop (Z.to_nat (skip pl)) l))) =
                Z.min (limit pl)
                  (Z.max 0 (Z.of_nat (length l) - skip pl))).
  { rewrite length_take, length_drop. lia. }
  split; [exact Len|].
  intros Hge. apply length_zero_iff_nil. lia.
Qed.

Lemma listing_length_witness :
  Z.of_nat (length [widget]) = Z.min 12 (Z.max 0 (1 - 0)) /\
  (1 <= 0 -> [widget] = []).
Proof.
  apply (@listing_length permissive shop ∅
           "Products retrieved successfully" [widget]
           {| current := 1; pages := 1; total := 1;
              hasNext := false; hasPrev := false |}
           {| page := 1; limit := 12; skip := 0;
              query := {| q_category := None; q_brand := None;
                          q_featured := None; q_status := "active";
                          q_price := None; q_text := None |};
              sortOptions := {| sortField := "createdAt"; sortOrder := -1 |} |});
    try reflexivity; apply Z.leb_le; reflexivity.
Defined.

(** X3. A first page that is large enough lists every stored product that
    satisfies the query, each as often as it is stored, and nothing else. *)
Theorem first_page_is_complete `{Platform} W req msg data m pl :
  getProducts W req = sendSuccess msg data (Some m) ->
  plan req = Some pl ->
  page pl = 1 ->
  total m <= limit pl ->
  1 <= limit pl ->
  Permutation data (matching W (query pl)).
Proof.
  intros G P Hp Ht Hl.
  destruct (getProducts_inv W req msg data _ G) as (pl' & P' & _ & Win & E).
  rewrite P in P'. injection P' as <-. injection E as ->. simpl in Ht.
  destruct (plan_page_limit req pl P) as (_ & _ & Hs).
  rewrite Hp in Hs. simpl in Hs.
  rewrite window_in_range in Win by lia. injection Win as <-.
  rewrite Hs. simpl. rewrite drop_0.
  rewrite <- (find_sorted_length W (query pl) (sortOptions pl)) in Ht.
  rewrite take_ge by lia. apply find_sorted_perm.
Qed.

Lemma first_page_is_complete_witness :
  Permutation [widget]
    (@matching permissive shop
       {| q_category := None; q_brand := None; q_featured := None;
          q_status := "active"; q_price := None; q_text := None |}).
Proof.
  apply (@first_page_is_complete permissive shop ∅
           "Products retrieved successfully" [widget]
           {| current := 1; pages := 1; total := 1;
              hasNext := false; hasPrev := false |}
           {| page := 1; limit := 12; skip := 0;
              query := {| q_category := None; q_brand := None;
                          q_featured := None; q_status := "active";
                          q_price := None; q_text := None |};
              sortOptions := {| sortField := "createdAt"; sortOrder := -1 |} |});
    try reflexivity; apply Z.leb_le; reflexivity.
Defined.

Section Conditions.
Context `{Platform}.

Lemma plan_query_rest req pl :
  plan req = Some pl ->
  q_category (query pl) = param req "category" /\
  q_status (query pl) = default "active" (param req "status") /\
  q_text (query pl) = param req "search" /\
  sortOptions pl = sort_plan req.
Proof.
  unfold plan. destruct (brand_filter req); [|discriminate].
  intros E. injection E as <-. simpl. auto.
Qed.

Lemma matches_category_text q p :
  matches q p = true ->
  holds (q_category q) (String.eqb (category p)) = true /\
  holds (q_text q) (fun s => text_search s p) = true.
Proof.
  unfold matches. rewrite !andb_true_iff. tauto.
Qed.
End Conditions.

(** X4. Every product of a listing is a stored product whose status is the
    requested one, or "active" when none is requested, whose category is the
    requested one when one is requested, and which the store's text search
    accepts when a search text is given. *)
Theorem listed_products_satisfy_request `{Platform} W req msg data meta p :
  getProducts W req = sendSuccess msg data meta ->
  In p data ->
  In p (all_docs W) /\
  status p = default "active" (param req "status") /\
  (param req "status" = None -> status p = "active"%string) /\
  (forall c, param req "category" = Some c -> category p = c) /\
  (forall s, param req "search" = Some s -> text_search s p = true).
Proof.
  intros G Hin.
  destruct (getProducts_items_match W req msg data meta G) as (pl & P & All).
  destruct (All p Hin) as [Stored M].
  destruct (plan_query_rest req pl P) as (Qc & Qs & Qt & _).
  destruct (matches_conditions _ _ M) as (_ & _ & _ & St).
  destruct (matches_category_text _ _ M) as (C & T).
  rewrite Qc in C. rewrite Qt in T. rewrite Qs in St.
  split; [exact Stored|]. split; [exact St|].
  split; [intros E; now rewrite E in St|].
  split.
  - intros c E. rewrite E in C. simpl in C. now apply String.eqb_eq in C.
  - intros s E. now rewrite E in T.
Qed.

Lemma listed_products_satisfy_request_witness :
  In widget (all_docs shop) /\
  status widget = default "active" (param (∅ : Params) "status") /\
  (param (∅ : Params) "status" = None -> status widget = "active"%string) /\
  (forall c, param (∅ : Params) "category" = Some c -> category widget = c) /\
  (forall s, param (∅ : Params) "search" = Some s ->
             @text_search permissive s widget = true).
Proof.
  apply (@listed_products_satisfy_request permissive shop ∅
           "Products retrieved successfully" [widget]
           (Some {| current := 1; pages := 1; total := 1;
                    hasNext := false; hasPrev := false |}) widget).
  - reflexivity.
  - left. reflexivity.
Defined.

(** X5. The sort token and the sort options determine each other: the order
    is 1 or -1, a token is recovered as the field with a dash before it when
    the order is -1, a field taken in ascending order never starts with a
    dash, and without a token the listing is by [createdAt], newest first. *)
Theorem sort_token_round_trip (req : Params) :
  (sortOrder (sort_plan req) = 1 \/ sortOrder (sort_plan req) = -1) /\
  (param req "sort" = None ->
   sort_plan req = {| sortField := "createdAt"; sortOrder := -1 |}) /\
  (forall s, param req "sort" = Some s ->
     (if sortOrder (sort_plan req) =? -1
      then String "-" (sortField (sort_plan req))
      else sortField (sort_plan req)) = s /\
     (sortOrder (sort_plan req) = 1 ->
      forall rest, sortField (sort_plan req) <> String "-" rest)).
Proof.
  unfold sort_plan. destruct (param req "sort") as [s|].
  - assert (D : (exists rest, s = String "-" rest) \/
                (forall rest, s <> String "-" rest)).
    { destruct s as [|c s]; [right; discriminate|].
      destruct (Ascii.eqb_spec c "-") as [->|N].
      - left. now exists s.
      - right. intros rest E. now injection E. }
    destruct D as [[rest ->]|N].
    + simpl. split; [now right|]. split; [discriminate|].
      intros s [= <-]. split; [reflexivity|]. discriminate.
    + assert (E : match s with
                  | String "-" rest => {| sortField := rest; sortOrder := -1 |}
                  | _ => {| sortField := s; sortOrder := 1 |}
                  end = {| sortField := s; sortOrder := 1 |}).
      { destruct s as [|c s]; [reflexivity|].
        destruct c as [[] [] [] [] [] [] [] []]; try reflexivity.
        now contradiction (N s). }
      rewrite E. simpl. split; [now left|]. split; [discriminate|].
      intros s' [= <-]. split; [reflexivity|]. intros _. exact N.
  - simpl. split; [now right|]. split; [reflexivity|]. discriminate.
Qed.

(** ** [deleteProduct] and [getProductById] *)

(** X6. Deleting a stored product succeeds and removes it for good: reading
    it, deleting it again or reviewing it afterwards answers "not found";
    every other product is as it was and nothing is saved. *)
Theorem delete_removes_product `{Platform} W id p :
  findById W id = Some p ->
  let W' := snd (deleteProduct W id) in
  fst (deleteProduct W id) = sendSuccess "Product deleted successfully" [] None /\
  getProductById W' id = sendNotFound "Product not found" /\
  deleteProduct W' id = (sendNotFound "Product not found", W') /\
  (forall user b,
     createProductReview W' id user b = (sendNotFound "Product not found", W')) /\
  (forall b, updateProduct W' id b = (sendNotFound "Product not found", W')) /\
  (forall id', id' <> id -> findById W' id' = findById W id') /\
  saved W' = saved W.
Proof.
  intros F W'. unfold W', deleteProduct. rewrite F. simpl.
  assert (Gone : findById (findByIdAndDelete W id) id = None)
    by apply lookup_delete_eq.
  split; [reflexivity|].
  split; [unfold getProductById; now rewrite Gone|].
  split; [now rewrite Gone|].
  split.
  { intros user b.
    pose proof (createProductReview_outcome (findByIdAndDelete W id) id user b)
      as O.
    now rewrite Gone in O. }
  split.
  { intros b.
    pose proof (updateProduct_outcome (findByIdAndDelete W id) id b) as O.
    now rewrite Gone in O. }
  split; [|reflexivity].
  intros id' Hne. apply lookup_delete_ne. congruence.
Qed.

Lemma delete_removes_product_witness :
  fst (deleteProduct shop "p1")
    = sendSuccess "Product deleted successfully" [] None /\
  getProductById (snd (deleteProduct shop "p1")) "p1"
    = sendNotFound "Product not found" /\
  deleteProduct (snd (deleteProduct shop "p1")) "p1"
    = (sendNotFound "Product not found", snd (deleteProduct shop "p1")) /\
  (forall user b,
     @createProductReview permissive (snd (deleteProduct shop "p1")) "p1" user b
     = (sendNotFound "Product not found", snd (deleteProduct shop "p1"))) /\
  (forall b,
     @updateProduct permissive (snd (deleteProduct shop "p1")) "p1" b
     = (sendNotFound "Product not found", snd (deleteProduct shop "p1"))) /\
  (forall id', id' <> "p1"%string ->
     findById (snd (deleteProduct shop "p1")) id' = findById shop id') /\
  saved (snd (deleteProduct shop "p1")) = saved shop.
Proof.
  apply (@delete_removes_product permissive shop "p1"%string widget).
  reflexivity.
Defined.

(** X7. A successful review can be read back at once: [getProductById]
    answers with a document whose review list ends with the caller's review,
    and a further review by the same caller on that product is refused as a
    duplicate, whatever it says. *)
Theorem review_is_read_back `{Platform} W id user b r W' :
  createProductReview W id user b = (r, W') ->
  is_created r = true ->
  exists p,
    getProductById W' id =
      sendSuccess "Product retrieved successfully" [p] None /\
    last (reviews p) = Some (review_of (user, b)) /\
    (forall b',
       createProductReview W' id user b' =
       (sendError "Product already reviewed" (Some 400), W')).
Proof.
  intros E Hr.
  destruct (created_inv W id user b r W' E Hr) as (p0 & F & _ & _ & ->).
  set (p := push_review p0 user b).
  assert (F' : findById (written W id p) id = Some p) by apply lookup_insert_eq.
  exists p. split; [unfold getProductById; now rewrite F'|].
  split; [unfold p; rewrite push_review_reviews; apply last_snoc|].
  intros b'.
  destruct (alreadyReviewed_found p user (review_of (user, b))) as [r' A].
  - unfold p. rewrite push_review_reviews. apply in_app_iff. right. now left.
  - reflexivity.
  - pose proof (createProductReview_outcome (written W id p) id user b') as O.
    now rewrite F', A in O.
Qed.

Lemma review_is_read_back_witness :
  exists p,
    getProductById
      (snd (@createProductReview bounded shop "p1" alice (stars 5))) "p1" =
      sendSuccess "Product retrieved successfully" [p] None /\
    last (reviews p) = Some (review_of (alice, stars 5)) /\
    (forall b',
       @createProductReview bounded
         (snd (@createProductReview bounded shop "p1" alice (stars 5)))
         "p1" alice b' =
       (sendError "Product already reviewed" (Some 400),
        snd (@createProductReview bounded shop "p1" alice (stars 5)))).
Proof.
  apply (@review_is_read_back bounded shop "p1"%string alice (stars 5)
           (fst (@createProductReview bounded shop "p1" alice (stars 5)))).
  - apply surjective_pairing.
  - reflexivity.
Defined.

(** ** [updateProduct] *)

Section UpdateFacts.
Context `{Platform}.

Lemma or_string_again x old : or_string x (or_string x old) = or_string x old.
Proof. destruct x as [[|c s]|]; reflexivity. Qed.

Lemma or_Q_again x old : or_Q x (or_Q x old) = or_Q x old.
Proof.
  unfold or_Q. destruct x as [q|]; [|reflexivity].
  destruct (truthy_Q q); reflexivity.
Qed.

Lemma or_optQ_again x old : or_optQ x (or_optQ x old) = or_optQ x old.
Proof.
  unfold or_optQ. destruct x as [q|]; [|reflexivity].
  destruct (truthy_Q q); reflexivity.
Qed.

Lemma assign_fields_again p b :
  assign_fields (assign_fields p b) b = assign_fields p b.
Proof.
  unfold assign_fields at 1 3. simpl.
  rewrite !or_string_again, or_Q_again, or_optQ_again.
  destruct (b_images b), (b_stock b), (b_specifications b), (b_tags b),
    (b_featured b); reflexivity.
Qed.

Lemma updated_inv W id b msg data meta W' :
  updateProduct W id b = (sendSuccess msg data meta, W') ->
  exists p0,
    findById W id = Some p0 /\
    schema_ok (assign_fields p0 b) = true /\
    msg = "Product updated successfully"%string /\
    data = [assign_fields p0 b] /\ meta = None /\
    W' = written W id (assign_fields p0 b).
Proof.
  intros E. pose proof (updateProduct_outcome W id b) as O.
  destruct (findById W id) as [p0|].
  - destruct (schema_ok (assign_fields p0 b)) eqn:S; rewrite O in E.
    + injection E as <- <- <- <-. now exists p0.
    + discriminate E.
  - rewrite O in E. discriminate E.
Qed.

Lemma truthy_Q_true q : truthy_Q q = true <-> ~ (q == 0)%Q.
Proof.
  unfold truthy_Q, JS.is_zero. rewrite negb_true_iff.
  destruct (Qeq_bool q 0) eqn:E.
  - apply Qeq_bool_iff in E. split; [discriminate | tauto].
  - split; [|reflexivity]. intros _ Z. apply Qeq_bool_iff in Z. congruence.
Qed.
End UpdateFacts.

(** X8. What an update leaves alone: the other products; on a product that
    is found, its reviews, rating summary and creator, whether or not the
    write goes through; and the whole store, with nothing saved, whenever the
    answer is not a success. *)
Theorem update_frame `{Platform} W id b r W' :
  updateProduct W id b = (r, W') ->
  (forall id', id' <> id -> findById W' id' = findById W id') /\
  (forall p0, findById W id = Some p0 ->
     exists p,
       findById W' id = Some p /\
       reviews p = reviews p0 /\ ratings p = ratings p0 /\
       numOfReviews p = numOfReviews p0 /\ createdBy p = createdBy p0) /\
  (findById W id = None -> r = sendNotFound "Product not found") /\
  ((forall msg data meta, r <> sendSuccess msg data meta) -> W' = W).
Proof.
  intros E. pose proof (updateProduct_outcome W id b) as O.
  destruct (findById W id) as [p0|] eqn:F.
  - destruct (schema_ok (assign_fields p0 b)); rewrite O in E;
      injection E as <- <-.
    + split; [intros id' Hne; apply lookup_insert_ne; congruence|].
      split.
      { intros p1 [= <-]. exists (assign_fields p0 b).
        split; [apply lookup_insert_eq | repeat split]. }
      split; [discriminate|].
      intros N. now contradiction (N _ _ _ eq_refl).
    + split; [reflexivity|]. split; [|split; [discriminate | reflexivity]].
      intros p1 [= <-]. exists p0. now rewrite F.
  - rewrite O in E. injection E as <- <-.
    split; [reflexivity|]. split; [discriminate|]. split; reflexivity.
Qed.

Lemma update_frame_witness :
  (forall id', id' <> "p1"%string ->
     findById (snd (@updateProduct permissive shop1 "p1" (only_price 25))) id'
     = findById shop1 id') /\
  (forall p0, findById shop1 "p1" = Some p0 ->
     exists p,
       findById (snd (@updateProduct permissive shop1 "p1" (only_price 25)))
         "p1" = Some p /\
       reviews p = reviews p0 /\ ratings p = ratings p0 /\
       numOfReviews p = numOfReviews p0 /\ createdBy p = createdBy p0) /\
  (findById shop1 "p1" = None ->
   fst (@updateProduct permissive shop1 "p1" (only_price 25))
   = sendNotFound "Product not found") /\
  ((forall msg data meta,
      fst (@updateProduct permissive shop1 "p1" (only_price 25))
      <> sendSuccess msg data meta) ->
   snd (@updateProduct permissive shop1 "p1" (only_price 25)) = shop1).
Proof.
  apply (@update_frame permissive shop1 "p1"%string (only_price 25)).
  apply surjective_pairing.
Defined.

(** X9. Updating twice with the same body is the same as updating once: the
    second update succeeds with the same document and leaves the stored
    documents as the first one left them. *)
Theorem update_twice `{Platform} W id b msg data meta W1 :
  updateProduct W id b = (sendSuccess msg data meta, W1) ->
  exists W2,
    updateProduct W1 id b = (sendSuccess msg data meta, W2) /\
    docs W2 = docs W1.
Proof.
  intros E.
  destruct (updated_inv W id b msg data meta W1 E)
    as (p0 & F & S & -> & -> & -> & ->).
  set (p := assign_fields p0 b) in *.
  pose proof (updateProduct_outcome (written W id p) id b) as O.
  assert (F' : findById (written W id p) id = Some p) by apply lookup_insert_eq.
  assert (Again : assign_fields p b = p) by apply assign_fields_again.
  rewrite F', Again, S in O.
  eexists. split; [exact O|]. simpl. apply insert_insert_eq.
Qed.

Lemma update_twice_witness :
  exists W2,
    @updateProduct permissive
      (snd (@updateProduct permissive shop "p1" (only_price 25)))
      "p1" (only_price 25) =
      (fst (@updateProduct permissive shop "p1" (only_price 25)), W2) /\
    docs W2 = docs (snd (@updateProduct permissive shop "p1" (only_price 25))).
Proof.
  apply (@update_twice permissive shop "p1"%string (only_price 25)
           "Product updated successfully"
           [assign_fields widget (only_price 25)] None).
  reflexivity.
Defined.

(** X10. The contract of a successful update, field by field. The stored
    document is the one in the answer. A field the body does not supply
    keeps its stored value. A supplied field is written when its value is
    truthy (a non-empty string, a non-zero number, any array or object), and
    [stock] and [featured] are written whatever the supplied value. *)
Theorem update_partial `{Platform} W id b p0 msg p W' :
  findById W id = Some p0 ->
  updateProduct W id b = (sendSuccess msg [p] None, W') ->
  findById W' id = Some p /\
  ((b_name b = None -> name p = name p0) /\
   (b_description b = None -> description p = description p0) /\
   (b_price b = None -> price p = price p0) /\
   (b_discountPrice b = None -> discountPrice p = discountPrice p0) /\
   (b_images b = None -> images p = images p0) /\
   (b_category b = None -> category p = category p0) /\
   (b_brand b = None -> brand p = brand p0) /\
   (b_stock b = None -> stock p = stock p0) /\
   (b_specifications b = None -> specifications p = specifications p0) /\
   (b_tags b = None -> tags p = tags p0) /\
   (b_featured b = None -> featured p = featured p0) /\
   (b_status b = None -> status p = status p0)) /\
  ((forall s, b_name b = Some s -> s <> EmptyString -> name p = s) /\
   (forall s, b_description b = Some s -> s <> EmptyString ->
              description p = s) /\
   (forall q, b_price b = Some q -> ~ (q == 0)%Q -> price p = q) /\
   (forall q, b_discountPrice b = Some q -> ~ (q == 0)%Q ->
              discountPrice p = Some q) /\
   (forall l, b_images b = Some l -> images p = l) /\
   (forall s, b_category b = Some s -> s <> EmptyString -> category p = s) /\
   (forall s, b_brand b = Some s -> s <> EmptyString -> brand p = s) /\
   (forall n, b_stock b = Some n -> stock p = n) /\
   (forall l, b_specifications b = Some l -> specifications p = l) /\
   (forall l, b_tags b = Some l -> tags p = l) /\
   (forall f, b_featured b = Some f -> featured p = f) /\
   (forall s, b_status b = Some s -> s <> EmptyString -> status p = s)).
Proof.
  intros F E.
  destruct (updated_inv W id b msg [p] None W' E)
    as (p1 & F1 & _ & _ & D & _ & ->).
  rewrite F in F1. injection F1 as <-. injection D as ->.
  assert (Str : forall x old s, x = Some s -> s <> EmptyString ->
                                or_string x old = s).
  { intros x old s -> N. destruct s; [congruence | reflexivity]. }
  split; [apply lookup_insert_eq|]. split.
  - simpl. repeat split; intros ->; reflexivity.
  - simpl. repeat split;
      try (intros s Hs N; now apply Str);
      try (intros x ->; reflexivity).
    + intros q -> N. unfold or_Q.
      now rewrite (proj2 (truthy_Q_true q) N).
    + intros q -> N. unfold or_optQ.
      now rewrite (proj2 (truthy_Q_true q) N).
Qed.

Lemma update_partial_witness :
  findById (written shop "p1" (assign_fields widget (only_price 25))) "p1"
    = Some (assign_fields widget (only_price 25)) /\
  price (assign_fields widget (only_price 25)) = 25%Q /\
  name (assign_fields widget (only_price 25)) = name widget.
Proof.
  destruct (@update_partial permissive shop "p1"%string (only_price 25) widget
              "Product updated successfully"
              (assign_fields widget (only_price 25))
              (written shop "p1" (assign_fields widget (only_price 25)))
              eq_refl eq_refl)
    as (Stored & (Name & _) & (_ & _ & Price & _)).
  split; [exact Stored|]. split.
  - apply (Price 25%Q eq_refl). intros Z. discriminate Z.
  - apply Name. reflexivity.
Defined.

(** ** [createProductReview] *)

Section ReviewFacts.
Context `{Platform}.

(** Every answer other than "created" leaves the world as it was. *)
Lemma not_created_unchanged W id user b r W' :
  createProductReview W id user b = (r, W') ->
  is_created r = false -> W' = W.
Proof.
  intros E Hr. pose proof (createProductReview_outcome W id user b) as O.
  destruct (findById W id) as [p0|].
  - destruct (alreadyReviewed p0 user).
    + rewrite O in E. now injection E as <- <-.
    + destruct (schema_ok (push_review p0 user b)); rewrite O in E;
        injection E as <- <-; [discriminate Hr | reflexivity].
  - rewrite O in E. now injection E as <- <-.
Qed.

Lemma push_review_users p user b :
  map r_user (reviews (push_review p user b)) =
  map r_user (reviews p) ++ [u_id user].
Proof. rewrite push_review_reviews, map_app. reflexivity. Qed.

Lemma one_review_per_user_written W id p :
  one_review_per_user W ->
  NoDup (map r_user (reviews p)) ->
  one_review_per_user (written W id p).
Proof.
  intros Inv Hp id' p'. unfold findById, written. simpl docs.
  destruct (decide (id = id')) as [->|N].
  - rewrite lookup_insert_eq. now intros [= <-].
  - rewrite lookup_insert_ne by exact N. apply Inv.
Qed.

(** The running total of ratings that all lie between 1 and 5. *)
Lemma reduce_bounds rs : forall a,
  Forall (fun r => from_1_to_5 (r_rating r)) rs ->
  exists s,
    fold_left (fun acc item => JS.add (r_rating item) acc) rs (JS.Fin a)
      = JS.Fin s /\
    (a + inject_Z (Z.of_nat (length rs)) <= s)%Q /\
    (s <= a + 5 * inject_Z (Z.of_nat (length rs)))%Q.
Proof.
  induction rs as [|r rs IH]; intros a All.
  - exists a. simpl. change (inject_Z (Z.of_nat 0)) with 0%Q.
    split; [reflexivity|]. split; lra.
  - apply Forall_cons in All as [(q & Eq & Lo & Hi) All].
    cbn [fold_left]. rewrite Eq. cbn [JS.add].
    destruct (IH (q + a)%Q All) as (s & Es & Ls & Hs).
    exists s. split; [exact Es|].
    rewrite length_cons, Nat2Z.inj_succ, <- Z.add_1_r, inject_Z_plus.
    change (inject_Z 1) with 1%Q. split; lra.
Qed.
End ReviewFacts.

(** X11. What a review leaves alone: the other products; the product's own
    catalogue fields and its earlier reviews, which stay in place before the
    new one; and, when the answer is not "created", the whole store, with
    nothing saved. *)
Theorem review_frame `{Platform} W id user b r W' :
  createProductReview W id user b = (r, W') ->
  (forall id', id' <> id -> findById W' id' = findById W id') /\
  (is_created r = false -> W' = W) /\
  (forall p0, findById W id = Some p0 ->
     exists p,
       findById W' id = Some p /\
       (reviews p = reviews p0 \/
        reviews p = reviews p0 ++ [review_of (user, b)]) /\
       name p = name p0 /\ description p = description p0 /\
       price p = price p0 /\ discountPrice p = discountPrice p0 /\
       images p = images p0 /\ category p = category p0 /\
       brand p = brand p0 /\ stock p = stock p0 /\
       specifications p = specifications p0 /\ tags p = tags p0 /\
       featured p = featured p0 /\ status p = status p0 /\
       createdBy p = createdBy p0).
Proof.
  intros E. destruct (is_created r) eqn:Hr.
  - destruct (created_inv W id user b r W' E Hr) as (p0 & F & _ & _ & ->).
    split; [intros id' N; apply lookup_insert_ne; congruence|].
    split; [discriminate|].
    intros p1 F1. rewrite F in F1. injection F1 as <-.
    exists (push_review p0 user b).
    split; [apply lookup_insert_eq|].
    split; [right; apply push_review_reviews|]. repeat split.
  - rewrite (not_created_unchanged W id user b r W' E Hr).
    split; [reflexivity|]. split; [reflexivity|].
    intros p0 F. exists p0. split; [exact F|]. split; [now left|].
    repeat split.
Qed.

Lemma review_frame_witness :
  (forall id', id' <> "p1"%string ->
     findById (snd (@createProductReview bounded shop1 "p1" bob (stars 3))) id'
     = findById shop1 id') /\
  (is_created (fst (@createProductReview bounded shop1 "p1" bob (stars 3)))
   = false ->
   snd (@createProductReview bounded shop1 "p1" bob (stars 3)) = shop1) /\
  (forall p0, findById shop1 "p1" = Some p0 ->
     exists p,
       findById (snd (@createProductReview bounded shop1 "p1" bob (stars 3)))
         "p1" = Some p /\
       (reviews p = reviews p0 \/
        reviews p = reviews p0 ++ [review_of (bob, stars 3)]) /\
       name p = name p0 /\ description p = description p0 /\
       price p = price p0 /\ discountPrice p = discountPrice p0 /\
       images p = images p0 /\ category p = category p0 /\
       brand p = brand p0 /\ stock p = stock p0 /\
       specifications p = specifications p0 /\ tags p = tags p0 /\
       featured p = featured p0 /\ status p = status p0 /\
       createdBy p = createdBy p0).
Proof.
  apply (@review_frame bounded shop1 "p1"%string bob (stars 3)).
  apply surjective_pairing.
Defined.

(** X12. "One review per user" is an invariant of the store under the three
    handlers that write: if no product holds two reviews by the same user,
    none does after a review, an update or a deletion, whatever they
    answer. *)
Theorem one_review_per_user_kept `{Platform} W :
  one_review_per_user W ->
  (forall id user b,
     one_review_per_user (snd (createProductReview W id user b))) /\
  (forall id b, one_review_per_user (snd (updateProduct W id b))) /\
  (forall id, one_review_per_user (snd (deleteProduct W id))).
Proof.
  intros Inv. split; [|split].
  - intros id user b.
    pose proof (createProductReview_outcome W id user b) as O.
    destruct (findById W id) as [p0|] eqn:F.
    + destruct (alreadyReviewed p0 user) eqn:A; [now rewrite O|].
      destruct (schema_ok (push_review p0 user b)); rewrite O; [|exact Inv].
      apply one_review_per_user_written; [exact Inv|].
      rewrite push_review_users. apply NoDup_app.
      split; [exact (Inv id p0 F)|]. split.
      * intros u Hu Hin. apply list_elem_of_In in Hu.
        apply list_elem_of_In in Hin. destruct Hin as [<-|[]].
        now apply (proj1 (alreadyReviewed_none p0 user) A).
      * apply NoDup_singleton.
    + now rewrite O.
  - intros id b. pose proof (updateProduct_outcome W id b) as O.
    destruct (findById W id) as [p0|] eqn:F; [|now rewrite O].
    destruct (schema_ok (assign_fields p0 b)); rewrite O; [|exact Inv].
    apply one_review_per_user_written; [exact Inv | exact (Inv id p0 F)].
  - intros id. unfold deleteProduct.
    destruct (findById W id) as [p0|]; [|exact Inv].
    intros id' p'. simpl. unfold findById, findByIdAndDelete. simpl docs.
    intros L. apply lookup_delete_Some in L as [_ L]. exact (Inv id' p' L).
Qed.

Lemma one_review_per_user_kept_witness :
  (forall id user b,
     one_review_per_user (snd (@createProductReview bounded shop1 id user b))) /\
  (forall id b,
     one_review_per_user (snd (@updateProduct bounded shop1 id b))) /\
  (forall id, one_review_per_user (snd (deleteProduct shop1 id))).
Proof.
  apply (@one_review_per_user_kept bounded shop1).
  intros id p. unfold findById, shop1. simpl docs. intros L.
  apply lookup_singleton_Some in L as [_ <-].
  simpl. apply NoDup_singleton.
Defined.

(** X13. Ratings between 1 and 5 give a summary between 1 and 5: when every
    stored review of the product has a rating in that range and the new
    rating is in it too, a successful review leaves [ratings] a finite
    number between 1 and 5. *)
Theorem ratings_stay_in_range `{Platform} W id user b r W' p0 :
  createProductReview W id user b = (r, W') ->
  is_created r = true ->
  findById W id = Some p0 ->
  Forall (fun r => from_1_to_5 (r_rating r)) (reviews p0) ->
  from_1_to_5 (JS.Number (rating b)) ->
  exists p, findById W' id = Some p /\ from_1_to_5 (ratings p).
Proof.
  intros E Hr F Old New.
  destruct (created_inv W id user b r W' E Hr) as (p1 & F1 & _ & _ & ->).
  rewrite F in F1. injection F1 as <-.
  exists (push_review p0 user b). split; [apply lookup_insert_eq|].
  assert (All : Forall (fun r => from_1_to_5 (r_rating r))
                  (reviews (push_review p0 user b))).
  { rewrite push_review_reviews. apply Forall_app. split; [exact Old|].
    apply Forall_singleton. exact New. }
  destruct (reduce_bounds _ 0%Q All) as (s & Es & Lo & Hi).
  simpl ratings. unfold sum_ratings.
  change (reviews p0 ++ _) with (reviews (push_review p0 user b)).
  rewrite Es.
  set (n := length (reviews (push_review p0 user b))) in *.
  assert (Hn : (1 <= n)%nat).
  { unfold n. rewrite push_review_reviews, length_app. simpl. lia. }
  assert (Pos : (0 < inject_Z (Z.of_nat n))%Q).
  { change 0%Q with (inject_Z 0). rewrite <- Zlt_Qlt. lia. }
  unfold JS.of_nat, JS.of_Z, JS.div, JS.is_zero.
  destruct (Qeq_bool (inject_Z (Z.of_nat n)) 0) eqn:Z.
  { apply Qeq_bool_iff in Z. rewrite Z in Pos. now apply Qlt_irrefl in Pos. }
  exists (s / inject_Z (Z.of_nat n))%Q. split; [reflexivity|]. split.
  - apply Qle_shift_div_l; [exact Pos | lra].
  - apply Qle_shift_div_r; [exact Pos | lra].
Qed.

Lemma ratings_stay_in_range_witness :
  exists p,
    findById (snd (@createProductReview bounded shop1 "p1" bob (stars 3))) "p1"
      = Some p /\
    from_1_to_5 (ratings p).
Proof.
  apply (@ratings_stay_in_range bounded shop1 "p1"%string bob (stars 3)
           (fst (@createProductReview bounded shop1 "p1" bob (stars 3)))
           (snd (@createProductReview bounded shop1 "p1" bob (stars 3)))
           reviewed_once).
  - apply surjective_pairing.
  - reflexivity.
  - reflexivity.
  - apply Forall_singleton. exists 5%Q. repeat split; discriminate.
  - exists 3%Q. repeat split; discriminate.
Defined.

(** ** Requests on different products, in any order *)

Section Independence.
Context `{Platform}.

Lemma review_commit_answer W W0 id d user b :
  fst (review_commit W id d user b) = fst (review_commit W0 id d user b).
Proof.
  unfold review_commit. destruct d as [p|]; [|reflexivity].
  destruct (alreadyReviewed p user); [reflexivity|].
  rewrite !save_spec. now destruct (schema_ok _).
Qed.

Lemma review_commit_elsewhere W id d user b id' :
  id' <> id ->
  findById (snd (review_commit W id d user b)) id' = findById W id'.
Proof.
  intros N. unfold review_commit. destruct d as [p|]; [|reflexivity].
  destruct (alreadyReviewed p user); [reflexivity|].
  rewrite save_spec. destruct (schema_ok _); [|reflexivity].
  apply lookup_insert_ne. congruence.
Qed.

Lemma review_commit_here W W0 id d user b :
  findById W id = findById W0 id ->
  findById (snd (review_commit W id d user b)) id =
  findById (snd (review_commit W0 id d user b)) id.
Proof.
  intros E. unfold review_commit. destruct d as [p|]; [|exact E].
  destruct (alreadyReviewed p user); [exact E|].
  rewrite !save_spec. destruct (schema_ok _); [|exact E].
  unfold findById, written. simpl docs. now rewrite !lookup_insert_eq.
Qed.

Lemma step_progress W0 W s k :
  findById W (s_id s) = doc_after W0 s k ->
  fst (step W (progress W0 s k)) = progress W0 s (S k) /\
  findById (snd (step W (progress W0 s k))) (s_id s) = doc_after W0 s (S k) /\
  (forall id', id' <> s_id s ->
     findById (snd (step W (progress W0 s k))) id' = findById W id').
Proof.
  intros D. destruct k as [|[|k]].
  - simpl in D. simpl. rewrite D. auto.
  - simpl in D. cbn [progress step].
    destruct (review_commit W (s_id s) (findById W0 (s_id s)) (s_user s)
                (s_body s)) as [r W'] eqn:E.
    cbn [fst snd].
    assert (Er : r = fst (alone W0 s)).
    { change r with (fst (r, W')). rewrite <- E. apply review_commit_answer. }
    assert (Ew : W' = snd (review_commit W (s_id s) (findById W0 (s_id s))
                             (s_user s) (s_body s))) by now rewrite E.
    split; [now rewrite Er|]. split.
    + rewrite Ew. simpl doc_after. now apply review_commit_here.
    + intros id' N. rewrite Ew. now apply review_commit_elsewhere.
  - simpl in D. simpl. auto.
Qed.

Lemma zip_progress_lookup W0 (subs : list Submission) (ks : list nat) i s k :
  subs !! i = Some s -> ks !! i = Some k ->
  zip_with (progress W0) subs ks !! i = Some (progress W0 s k).
Proof.
  intros Hs Hk. apply lookup_zip_with_Some. now exists s, k.
Qed.

Lemma zip_progress_insert W0 (subs : list Submission) (ks : list nat) i s k :
  subs !! i = Some s -> ks !! i = Some k ->
  <[i := progress W0 s (S k)]> (zip_with (progress W0) subs ks) =
  zip_with (progress W0) subs (alter S i ks).
Proof.
  revert ks i. induction subs as [|s' subs IH]; intros [|k' ks] [|i] Hs Hk;
    try discriminate; simpl in *.
  - injection Hs as ->. injection Hk as ->. reflexivity.
  - f_equal. now apply IH.
Qed.

Lemma run_distinct W0 (subs : list Submission) :
  NoDup (map s_id subs) ->
  forall schedule W ks,
    length ks = length subs ->
    in_step W0 W subs ks ->
    exists W',
      run schedule W (zip_with (progress W0) subs ks) =
        (zip_with (progress W0) subs (steps_taken schedule ks), W') /\
      in_step W0 W' subs (steps_taken schedule ks).
Proof.
  intros ND. induction schedule as [|i rest IH]; intros W ks Len Inv.
  - exists W. split; [reflexivity | exact Inv].
  - cbn [steps_taken fold_left]. fold (steps_taken rest (alter S i ks)).
    destruct (subs !! i) as [s|] eqn:Hs.
    + destruct (ks !! i) as [k|] eqn:Hk.
      2:{ apply lookup_ge_None in Hk. apply lookup_lt_Some in Hs. lia. }
      destruct (step_progress W0 W s k (Inv i s k Hs Hk)) as (T & Dh & De).
      rewrite (run_cons _ _ _ _ _ (zip_progress_lookup W0 subs ks i s k Hs Hk)).
      rewrite T, zip_progress_insert by assumption.
      apply IH; [now rewrite length_alter|].
      intros j s' k' Hs' Hk'.
      destruct (decide (j = i)) as [->|Nj].
      * rewrite Hs in Hs'. injection Hs' as <-.
        rewrite list_lookup_alter_eq, Hk in Hk'. simpl in Hk'.
        injection Hk' as <-. exact Dh.
      * rewrite list_lookup_alter_ne in Hk' by congruence.
        rewrite De; [now apply (Inv j)|].
        intros Eid. apply Nj.
        eapply NoDup_lookup; [exact ND| |].
        -- rewrite list_lookup_fmap, Hs'. reflexivity.
        -- rewrite list_lookup_fmap, Hs. simpl. now rewrite Eid.
    + assert (Hz : zip_with (progress W0) subs ks !! i = None).
      { apply lookup_ge_None. rewrite length_zip_with.
        apply lookup_ge_None in Hs. lia. }
      cbn [run]. rewrite Hz.
      assert (Ha : alter S i ks = ks).
      { apply list_eq. intros j. destruct (decide (j = i)) as [->|N].
        - rewrite list_lookup_alter_eq.
          assert (ks !! i = None) as ->; [|reflexivity].
          apply lookup_ge_None. apply lookup_ge_None in Hs. lia.
        - now rewrite list_lookup_alter_ne by congruence. }
      rewrite Ha. now apply IH.
Qed.

Lemma steps_taken_lookup schedule : forall ks i,
  steps_taken schedule ks !! i =
  (fun k => (k + count_occ Nat.eq_dec schedule i)%nat) <$> ks !! i.
Proof.
  induction schedule as [|j rest IH]; intros ks i.
  - simpl. destruct (ks !! i); simpl; [f_equal; lia | reflexivity].
  - cbn [steps_taken fold_left]. fold (steps_taken rest (alter S j ks)).
    rewrite IH. cbn [count_occ]. destruct (Nat.eq_dec j i) as [->|N].
    + rewrite list_lookup_alter_eq. destruct (ks !! i); simpl;
        [f_equal; lia | reflexivity].
    + now rewrite list_lookup_alter_ne by exact N.
Qed.
End Independence.

(** X14. Requests on pairwise different products do not disturb each other,
    whatever the interleaving: under every schedule, a request that has had
    its two steps has the answer it would get if handled alone from the
    initial store, and its product is stored as that lone handling would
    leave it. *)
Theorem interleaving_on_distinct_products `{Platform} W0 subs schedule i s :
  NoDup (map s_id subs) ->
  subs !! i = Some s ->
  (2 <= count_occ Nat.eq_dec schedule i)%nat ->
  let out := run schedule W0
               (map (fun s => Pending (s_id s) (s_user s) (s_body s)) subs) in
  fst out !! i = Some (Done (fst (alone W0 s))) /\
  findById (snd out) (s_id s) = findById (snd (alone W0 s)) (s_id s).
Proof.
  intros ND Hs Hc out.
  set (ks := replicate (length subs) 0%nat).
  assert (Start : map (fun s => Pending (s_id s) (s_user s) (s_body s)) subs
                  = zip_with (progress W0) subs ks).
  { unfold ks. clear. induction subs as [|s subs IH]; [reflexivity|].
    simpl. now rewrite IH. }
  destruct (run_distinct W0 subs ND schedule W0 ks) as (W' & R & Inv).
  { unfold ks. apply length_replicate. }
  { intros j s' k Hs' Hk. unfold ks in Hk.
    apply lookup_replicate in Hk as [-> _]. reflexivity. }
  unfold out. rewrite Start, R. cbn [fst snd].
  assert (Hk : steps_taken schedule ks !! i
               = Some (count_occ Nat.eq_dec schedule i)).
  { rewrite steps_taken_lookup. unfold ks.
    rewrite lookup_replicate_2 by (apply lookup_lt_Some in Hs; exact Hs).
    reflexivity. }
  split.
  - rewrite (zip_progress_lookup W0 subs _ i s _ Hs Hk).
    destruct (count_occ Nat.eq_dec schedule i) as [|[|k]]; [lia | lia |].
    reflexivity.
  - rewrite (Inv i s _ Hs Hk).
    destruct (count_occ Nat.eq_dec schedule i) as [|[|k]]; [lia | lia |].
    reflexivity.
Qed.

Lemma interleaving_on_distinct_products_witness :
  fst (@run bounded [0; 1; 1; 0]%nat mall
         (map (fun s => Pending (s_id s) (s_user s) (s_body s))
            [ {| s_id := "p1"; s_user := alice; s_body := stars 5 |};
              {| s_id := "p2"; s_user := alice; s_body := stars 2 |} ]))
    !! 1%nat
  = Some (Done (fst (@alone bounded mall
                       {| s_id := "p2"; s_user := alice; s_body := stars 2 |})))
  /\
  findById
    (snd (@run bounded [0; 1; 1; 0]%nat mall
            (map (fun s => Pending (s_id s) (s_user s) (s_body s))
               [ {| s_id := "p1"; s_user := alice; s_body := stars 5 |};
                 {| s_id := "p2"; s_user := alice; s_body := stars 2 |} ])))
    "p2"
  = findById
      (snd (@alone bounded mall
              {| s_id := "p2"; s_user := alice; s_body := stars 2 |}))
      "p2".
Proof.
  apply (@interleaving_on_distinct_products bounded mall
           [ {| s_id := "p1"; s_user := alice; s_body := stars 5 |};
             {| s_id := "p2"; s_user := alice; s_body := stars 2 |} ]
           [0; 1; 1; 0]%nat 1%nat
           {| s_id := "p2"; s_user := alice; s_body := stars 2 |}).
  - simpl. repeat constructor; rewrite ?list_elem_of_In; simpl;
      intuition discriminate.
  - reflexivity.
  - simpl. lia.
Defined.

(** ** The generator script *)

Section Generator.
Import Py.










End Generator.



Section Paths.
Import Py.



End Paths.



(** ** [getProducts]: the pages of a listing *)

Section Pages.
Context `{Platform}.



End Pages.


